(** * PodAI: the decision/action control loop of [podai.py]

    A shallow embedding of [src/podai.py]: the [AutonomousAI] class
    ([think], [execute_action], the seven action handlers), the background
    coroutine [ai_loop] and the HTTP endpoints, followed by the properties
    of the specification that are checked against it.

    Python values that come out of [json.loads] are modelled by the
    inductive type [json]; the state of the process (the [memory] and
    [goals] lists of the single [ai_manager] object, the external world,
    and what was logged or slept) is threaded explicitly through a
    state-and-exception monad [M].

    Modelling choices. Values are immutable: nothing in the source
    assigns into a decision or a memory entry, so the decision that
    [think] returns and the one it stored are the same value. Every
    operation runs to completion; the interleaving of the background
    task with the endpoints at [await] points is not modelled. What the
    Docker client, the oracle, the clock and the [json] module do is not
    part of the source: they are the members of the classes
    [Collaborators] and [PyLib], and every property is stated for all
    their instances. Strings are sequences of bytes, which is exact for
    the ASCII identifiers that are sliced here. *)

From Stdlib Require Import ZArith String Ascii List Bool Lia.
From stdpp Require Import base tactics option list strings gmap pretty.

Open Scope string_scope.
Open Scope list_scope.
Set Warnings "-register-all".

(* ===================================================================== *)
(** ** Python values *)
(* ===================================================================== *)

(** What [json.loads] can return, and what the handlers build. An object
    is kept as an association list in insertion order, as a Python dict
    is; [json.loads] yields each key once. [JFloat] carries Python's
    [repr] of the float. *)
Inductive json : Type :=
| JNull
| JBool (b : bool)
| JInt (z : Z)
| JFloat (repr : string)
| JStr (s : string)
| JArr (items : list json)
| JObj (fields : list (string * json)).

Definition dict : Type := list (string * json).

Fixpoint dict_get (k : string) (d : dict) : option json :=
  match d with
  | [] => None
  | (k', v) :: rest => if String.eqb k k' then Some v else dict_get k rest
  end.

Definition dict_has (k : string) (d : dict) : bool :=
  match dict_get k d with Some _ => true | None => false end.

(** Exceptions. The first group are subclasses of [Exception]; the last
    three derive from [BaseException] only and are not caught by
    [except Exception]. *)
Inductive exn : Type :=
| TypeError (msg : string)
| KeyError (key : string)
| ValueError (msg : string)
| JSONDecodeError (msg : string)           (* a subclass of ValueError *)
| RecursionError (msg : string)
| UnicodeDecodeError (msg : string)
| DockerException (msg : string)
| OracleError (msg : string)
| OtherException (cls msg : string)
| CancelledError
| KeyboardInterrupt
| SystemExit.

Definition is_Exception (e : exn) : bool :=
  match e with
  | CancelledError | KeyboardInterrupt | SystemExit => false
  | _ => true
  end.

(** The instances of [json.JSONDecodeError], as the clause
    [except json.JSONDecodeError] selects them: a [ValueError] that is
    not a [JSONDecodeError] is not one. *)
Definition is_JSONDecodeError (e : exn) : bool :=
  match e with
  | JSONDecodeError _ => true
  | _ => false
  end.

Definition dq : string := String "034"%char "".
Definition sq : string := String "039"%char "".
Definition nl : string := String "010"%char "".

(** [str(e)] *)
Definition exn_str (e : exn) : string :=
  match e with
  | TypeError msg | ValueError msg | JSONDecodeError msg | RecursionError msg
  | UnicodeDecodeError msg | DockerException msg
  | OracleError msg | OtherException _ msg => msg
  | KeyError k => sq +:+ k +:+ sq
  | CancelledError | KeyboardInterrupt | SystemExit => ""
  end.

(** The outcome of evaluating an expression: a value or a raised
    exception. *)
Inductive Res (A : Type) : Type :=
| Ok (a : A)
| Raise (e : exn).
Arguments Ok {A} a.
Arguments Raise {A} e.

(** [type(v).__name__] *)
Definition py_type_name (v : json) : string :=
  match v with
  | JNull => "NoneType"
  | JBool _ => "bool"
  | JInt _ => "int"
  | JFloat _ => "float"
  | JStr _ => "str"
  | JArr _ => "list"
  | JObj _ => "dict"
  end.

(** [v[k]] for a string key [k] *)
Definition py_getitem (v : json) (k : string) : Res json :=
  match v with
  | JObj d =>
      match dict_get k d with
      | Some x => Ok x
      | None => Raise (KeyError k)
      end
  | JArr _ => Raise (TypeError "list indices must be integers or slices, not str")
  | JStr _ => Raise (TypeError "string indices must be integers, not 'str'")
  | _ => Raise (TypeError (sq +:+ py_type_name v +:+ "' object is not subscriptable"))
  end.

(** [v != s] for a string literal [s] *)
Definition py_ne_str (v : json) (s : string) : bool :=
  match v with
  | JStr t => negb (String.eqb t s)
  | _ => true
  end.

(** [l[start:]] on a list, for any integer [start]: a negative start
    counts from the end and is clamped at the front of the list. *)
Definition py_slice_from {A} (start : Z) (l : list A) : list A :=
  let len := Z.of_nat (length l) in
  let i := if (start <? 0)%Z then Z.max (len + start) 0 else Z.min start len in
  drop (Z.to_nat i) l.

(** [s[:n]] on a string *)
Definition py_str_prefix (n : nat) (s : string) : string := String.substring 0 n s.

(** ["\n".join(l)] *)
Fixpoint py_join_from (i : nat) (sep : string) (l : list json) : Res string :=
  match l with
  | [] => Ok ""
  | x :: rest =>
      match x with
      | JStr s =>
          match rest with
          | [] => Ok s
          | _ =>
              match py_join_from (S i) sep rest with
              | Ok t => Ok (s +:+ sep +:+ t)
              | Raise e => Raise e
              end
          end
      | _ => Raise (TypeError ("sequence item " +:+ pretty i +:+ ": expected str instance, "
                                 +:+ py_type_name x +:+ " found"))
      end
  end.

Definition py_join (sep : string) (l : list json) : Res string := py_join_from 0 sep l.

(* ===================================================================== *)
(** ** The external collaborators *)
(* ===================================================================== *)

(** What the code reads of a docker-py [Container] object. *)
Record Container : Type := mkContainer {
  c_id : string;
  c_name : string;
  c_status : string;
  c_image_tags : list string
}.

(** The calls the code makes on its collaborators, indexed by the type
    of what they return: the oracle ([self.llm.ainvoke]) and the Docker
    client ([docker_client...]). Arguments that originate in the oracle's
    decision are [json] values, since nothing checks their shape. *)
Inductive extcall : Type -> Type :=
| Ainvoke (prompt : string) : extcall string
| ContainersList : extcall (list Container)          (* containers.list(all=True) *)
| ImagesList : extcall (list (list string))          (* the tags of images.list() *)
| NetworksList : extcall (list string)               (* the names of networks.list() *)
| VolumesList : extcall (list string)                (* the names of volumes.list() *)
| ContainersRun (image name : json) (kwargs : dict) : extcall Container
                                                     (* containers.run(image, name=name, detach=True, **kwargs) *)
| ContainersGet (name : json) : extcall Container    (* containers.get(name) *)
| Remove (c : Container) : extcall unit              (* container.remove(force=True) *)
| Update (c : Container) (kwargs : dict) : extcall unit  (* container.update with the keywords of kwargs *)
| Logs (c : Container) (tail : json) : extcall string    (* container.logs(tail=lines), bytes *)
| ExecRun (c : Container) (command : json) : extcall (Z * string).
                                                     (* container.exec_run(command): exit_code, output bytes *)

Inductive level : Type := INFO | ERROR.

(** What a run leaves behind, in order: calls on the collaborators, log
    records and sleeps. *)
Inductive Event : Type :=
| ECall {A : Type} (c : extcall A)
| ELog (lvl : level) (msg : string)
| ESleep (secs : Z).

(** What [json.loads] does besides decoding and raising
    [JSONDecodeError]: an integer literal over the interpreter's digit
    limit raises a plain [ValueError], and nesting beyond the recursion
    limit raises a [RecursionError]. *)
Inductive loads_error : Type :=
| DigitLimit (msg : string)
| NestingLimit (msg : string).

Definition loads_exn (err : loads_error) : exn :=
  match err with
  | DigitLimit msg => ValueError msg
  | NestingLimit msg => RecursionError msg
  end.

(** The three outcomes of [json.loads] on a string. *)
Inductive loads_outcome : Type :=
| Loaded (v : json)
| NotJSON (msg : string)                     (* raises json.JSONDecodeError *)
| LoadsFailed (err : loads_error).           (* raises [loads_exn err] *)

(** The parts of the Python library the code relies on. *)
Class PyLib : Type := {
  json_loads : string -> loads_outcome;
  json_dumps : option nat -> json -> string; (* the first argument is indent= *)
  py_repr_compound : json -> string;         (* str() of a list or a dict *)
  utf8_decode : string -> option string;     (* bytes.decode('utf-8') *)
  utf8_error : string -> string;             (* the text of its UnicodeDecodeError *)
  module_name : string                       (* __name__ of the module of the source *)
}.

(** [json.loads(s)] as an expression. *)
Definition py_json_loads `{PyLib} (s : string) : Res json :=
  match json_loads s with
  | Loaded v => Ok v
  | NotJSON msg => Raise (JSONDecodeError msg)
  | LoadsFailed err => Raise (loads_exn err)
  end.

(** The world outside the process: it answers every call with a value or
    an exception, and tells the time. *)
Class Collaborators (E : Type) : Type := {
  perform : forall A, extcall A -> E -> Res A * E;
  clock_now : E -> string * E                (* datetime.now().isoformat() *)
}.
Arguments perform {E _ A} c e.

(* ===================================================================== *)
(** ** Process state and the monad *)
(* ===================================================================== *)

Record World (E : Type) : Type := mkWorld {
  memory : list json;      (* ai_manager.memory *)
  goals : list json;       (* ai_manager.goals *)
  env : E;
  trace : list Event
}.
Arguments mkWorld {E} memory goals env trace.
Arguments memory {E} w.
Arguments goals {E} w.
Arguments env {E} w.
Arguments trace {E} w.

Definition M (E A : Type) : Type := World E -> Res A * World E.

Definition ret {E A} (a : A) : M E A := fun w => (Ok a, w).

Definition raise {E A} (e : exn) : M E A := fun w => (Raise e, w).

Definition bind {E A B} (m : M E A) (k : A -> M E B) : M E B :=
  fun w =>
    match m w with
    | (Ok a, w') => k a w'
    | (Raise e, w') => (Raise e, w')
    end.

Notation "x <- m ;; k" := (bind m (fun x => k))
  (at level 100, m at next level, right associativity).
Notation "m ;;; k" := (bind m (fun _ => k))
  (at level 100, right associativity).

Definition lift {E A} (r : Res A) : M E A := fun w => (r, w).

(** [try: m except <cls> as e: h e], where [catches] tells which
    exceptions are instances of [<cls>]. *)
Definition try_except {E A} (m : M E A) (catches : exn -> bool) (h : exn -> M E A) : M E A :=
  fun w =>
    match m w with
    | (Ok a, w') => (Ok a, w')
    | (Raise e, w') => if catches e then h e w' else (Raise e, w')
    end.

(** The world after the events [evs] were recorded. *)
Definition tell {E} (evs : list Event) (w : World E) : World E :=
  mkWorld (memory w) (goals w) (env w) (trace w ++ evs).

Definition emit {E} (ev : Event) : M E unit :=
  fun w => (Ok tt, tell [ev] w).

Definition log {E} (lvl : level) (msg : string) : M E unit := emit (ELog lvl msg).

(** [await asyncio.sleep(secs)] *)
Definition sleep {E} (secs : Z) : M E unit := emit (ESleep secs).

(** A call on a collaborator: recorded, then answered by the world. *)
Definition call {E} `{Collaborators E} {A} (c : extcall A) : M E A :=
  fun w =>
    let '(r, e') := perform c (env w) in
    (r, mkWorld (memory w) (goals w) e' (trace w ++ [ECall c])).

Definition now_isoformat {E} `{Collaborators E} : M E string :=
  fun w =>
    let '(t, e') := clock_now (env w) in
    (Ok t, mkWorld (memory w) (goals w) e' (trace w)).

Definition get_memory {E} : M E (list json) := fun w => (Ok (memory w), w).
Definition get_goals {E} : M E (list json) := fun w => (Ok (goals w), w).

(** [self.memory.append(x)] *)
Definition memory_append {E} (x : json) : M E unit :=
  fun w => (Ok tt, mkWorld (memory w ++ [x]) (goals w) (env w) (trace w)).

(** [self.goals.append(x)] *)
Definition goals_append {E} (x : json) : M E unit :=
  fun w => (Ok tt, mkWorld (memory w) (goals w ++ [x]) (env w) (trace w)).

(* ===================================================================== *)
(** ** Calling conventions *)
(* ===================================================================== *)

(** [str(v)], as an f-string renders [{v}]. *)
Definition py_str `{PyLib} (v : json) : string :=
  match v with
  | JNull => "None"
  | JBool true => "True"
  | JBool false => "False"
  | JInt z => pretty z
  | JFloat r => r
  | JStr s => s
  | JArr _ | JObj _ => py_repr_compound v
  end.

(** The seven methods bound in [self.action_dispatch]. *)
Inductive handler : Type :=
| h_create_container
| h_delete_container
| h_modify_container
| h_set_goal
| h_list_containers
| h_get_container_logs
| h_execute_in_container.

(** [self.action_dispatch], lines 28-36: a dict from action names to bound
    methods. *)
Definition action_dispatch : gmap string handler :=
  list_to_map [
    ("create_container", h_create_container);
    ("delete_container", h_delete_container);
    ("modify_container", h_modify_container);
    ("set_goal", h_set_goal);
    ("list_containers", h_list_containers);
    ("get_container_logs", h_get_container_logs);
    ("execute_in_container", h_execute_in_container)
  ].

(** The [def] line of a method: its parameters after [self]. *)
Record signature : Type := mkSig {
  sig_name : string;
  required : list string;
  optional : list (string * json);    (* parameters with a default *)
  var_keyword : bool;                 (* a trailing [**kwargs] *)
  is_async : bool                     (* [async def] or plain [def] *)
}.

Definition handler_sig (h : handler) : signature :=
  match h with
  | h_create_container => mkSig "create_container" ["name"; "image"] [] true true
  | h_delete_container => mkSig "delete_container" ["name"] [] false true
  | h_modify_container => mkSig "modify_container" ["name"] [] true true
  | h_set_goal => mkSig "set_goal" ["goal"] [] false false
  | h_list_containers => mkSig "list_containers" [] [] false true
  | h_get_container_logs => mkSig "get_container_logs" ["name"] [("lines", JInt 50)] false true
  | h_execute_in_container => mkSig "execute_in_container" ["name"; "command"] [] false true
  end.

Definition param_names (sg : signature) : list string :=
  required sg ++ map fst (optional sg).

Definition is_param (sg : signature) (k : string) : bool :=
  existsb (String.eqb k) (param_names sg).

(** The arguments of a call once bound: the named parameters, and what
    [**kwargs] collected. *)
Record bound_args : Type := mkBound {
  named : dict;
  extra : dict
}.

Definition arg (b : bound_args) (k : string) : json :=
  default JNull (dict_get k (named b)).

Definition qualname (sg : signature) : string :=
  "AutonomousAI." +:+ sig_name sg +:+ "()".

(** The named parameters of a call with keywords [kw]: what was given,
    or else the default. *)
Definition fill_params (sg : signature) (kw : dict) : dict :=
  (map (fun k => (k, default JNull (dict_get k kw))) (required sg)
   ++ map (fun kd => (fst kd, default (snd kd) (dict_get (fst kd) kw))) (optional sg))%list.

(** The text of the [TypeError] for parameters left without a value. *)
Definition missing_message (sg : signature) (missing : list string) : string :=
  let quoted := map (fun k => sq +:+ k +:+ sq) missing in
  qualname sg +:+ " missing " +:+ pretty (length missing) +:+ " required positional argument"
    +:+ match quoted with
        | [a] => ": " +:+ a
        | [a; b] => "s: " +:+ a +:+ " and " +:+ b
        | _ => "s: " +:+ String.concat ", " quoted
        end.

(** The keywords of a call [method( **kw)] on a bound method, taken in
    order: [self] already has its value, and a keyword that names no
    parameter needs a trailing [**kwargs]. The first keyword that cannot
    be bound ends the call. *)
Fixpoint check_keywords (sg : signature) (kw : dict) : option exn :=
  match kw with
  | [] => None
  | (k, _) :: rest =>
      if String.eqb k "self" then
        Some (TypeError (qualname sg +:+ " got multiple values for argument 'self'"))
      else if is_param sg k || var_keyword sg then
        check_keywords sg rest
      else
        Some (TypeError (qualname sg +:+ " got an unexpected keyword argument '" +:+ k +:+ sq))
  end.

(** Binding the arguments: the keywords are checked, then every
    parameter without a default must have been given. *)
Definition bind_arguments (sg : signature) (kw : dict) : Res bound_args :=
  match check_keywords sg kw with
  | Some e => Raise e
  | None =>
      match List.filter (fun k => negb (dict_has k kw)) (required sg) with
      | [] => Ok (mkBound (fill_params sg kw)
                    (List.filter (fun kv => negb (is_param sg (fst kv))) kw))
      | missing => Raise (TypeError (missing_message sg missing))
      end
  end.

(** The operand of [**] in a call must be a mapping. The error names
    the callee with its module. *)
Definition unpack_mapping `{PyLib} (sg : signature) (parameters : json) : Res dict :=
  match parameters with
  | JObj kw => Ok kw
  | _ => Raise (TypeError (module_name +:+ "." +:+ qualname sg
                             +:+ " argument after ** must be a mapping, not "
                             +:+ py_type_name parameters))
  end.

(* ===================================================================== *)
(** ** class AutonomousAI *)
(* ===================================================================== *)

Section AutonomousAI.
Context `{PyLib} {E : Type} `{Collaborators E}.

Definition container_state (c : Container) : json :=
  JObj [("id", JStr (py_str_prefix 12 (c_id c)));
        ("name", JStr (c_name c));
        ("status", JStr (c_status c));
        ("image", JArr (map JStr (c_image_tags c)))].

(** [get_system_state], lines 91-99 *)
Definition get_system_state : M E json :=
  containers <- call ContainersList ;;
  images <- call ImagesList ;;
  networks <- call NetworksList ;;
  volumes <- call VolumesList ;;
  ret (JObj [("containers", JArr (map container_state containers));
             ("images", JArr (map (fun tags => JArr (map JStr tags)) images));
             ("networks", JArr (map JStr networks));
             ("volumes", JArr (map JStr volumes))]).

(** [self.memory[-10:]], line 42: the part of the memory that goes into
    the prompt. *)
Definition recent_memory (mem : list json) : list json := py_slice_from (-10) mem.

Definition memory_str (mem : list json) : string :=
  match mem with
  | [] => "No previous actions"
  | _ => json_dumps None (JArr (recent_memory mem))
  end.

Definition goals_str (gs : list json) : Res string :=
  match gs with
  | [] => Ok "No specific goals set"
  | _ => py_join nl gs
  end.

(** The f-string of lines 46-70. *)
Definition build_prompt (system_state : json) (mem_s goals_s : string) : string :=
  String.concat nl [
    "";
    "        You are an autonomous AI responsible for managing a Docker container environment.";
    "        Your goal is to optimize the system, create interesting projects, and maintain a well-organized container ecosystem.";
    "";
    "        Current system state:";
    "        " +:+ json_dumps (Some 2) system_state;
    "";
    "        Recent memory:";
    "        " +:+ mem_s;
    "";
    "        Current goals:";
    "        " +:+ goals_s;
    "";
    "        Based on the current state, your memory, and goals, decide on the next action to take.";
    "        You can create, modify, or delete containers, set new goals, or perform any Docker-related operation.";
    "        Be creative, but also maintain system stability and efficiency.";
    "";
    "        Respond with a JSON object containing:";
    "        1. " +:+ dq +:+ "thought_process" +:+ dq +:+ ": Your reasoning for the decision";
    "        2. " +:+ dq +:+ "action" +:+ dq +:+ ": The action to perform (e.g., " +:+ dq
      +:+ "create_container" +:+ dq +:+ ", " +:+ dq +:+ "set_goal" +:+ dq +:+ ", " +:+ dq
      +:+ "modify_container" +:+ dq +:+ ", etc.)";
    "        3. " +:+ dq +:+ "parameters" +:+ dq +:+ ": Any parameters needed for the action";
    "        4. " +:+ dq +:+ "explanation" +:+ dq +:+ ": A user-friendly explanation of your decision";
    "";
    "        Remember, you have full control over the container environment. Be innovative!";
    "        "
  ].

(** The decision [think] returns when the response is not JSON, line 81. *)
Definition fallback_decision : json :=
  JObj [("thought_process", JStr "Error in decision making");
        ("action", JStr "none");
        ("parameters", JObj []);
        ("explanation", JStr "There was an error in processing the AI's response.")].

(** Lines 40-73 of [think]: snapshot, prompt, and the oracle's answer. *)
Definition ask_oracle : M E string :=
  system_state <- get_system_state ;;
  mem <- get_memory ;;
  gs <- get_goals ;;
  goals_s <- lift (goals_str gs) ;;
  call (Ainvoke (build_prompt system_state (memory_str mem) goals_s)).

(** Lines 74-81 of [think]: the [try] block around [json.loads] and its
    clause [except json.JSONDecodeError]. Whatever else [json.loads]
    raises is not caught here and leaves [think]. *)
Definition record_decision (response : string) : M E json :=
  try_except
    (decision <- lift (py_json_loads response) ;;
     timestamp <- now_isoformat ;;
     memory_append (JObj [("timestamp", JStr timestamp); ("decision", decision)]) ;;;
     ret decision)
    is_JSONDecodeError
    (fun _ =>
       log ERROR ("Invalid JSON response from AI: " +:+ response) ;;;
       ret fallback_decision).

(** [think], lines 38-81 *)
Definition think : M E json :=
  response <- ask_oracle ;;
  record_decision response.

(** *** The action handlers, lines 101-138 *)

Definition create_container (name image : json) (kwargs : dict) : M E json :=
  container <-
    (if dict_has "detach" kwargs
     then raise (TypeError "docker.models.containers.ContainerCollection.run() got multiple values for keyword argument 'detach'")
     else call (ContainersRun image name kwargs)) ;;
  ret (JObj [("message", JStr ("Container created: " +:+ c_name container +:+ " ("
                                 +:+ py_str_prefix 12 (c_id container) +:+ ")"))]).

Definition delete_container (name : json) : M E json :=
  container <- call (ContainersGet name) ;;
  call (Remove container) ;;;
  ret (JObj [("message", JStr ("Container deleted: " +:+ py_str name))]).

Definition modify_container (name : json) (kwargs : dict) : M E json :=
  container <- call (ContainersGet name) ;;
  call (Update container kwargs) ;;;
  ret (JObj [("message", JStr ("Container modified: " +:+ py_str name))]).

Definition set_goal (goal : json) : M E json :=
  goals_append goal ;;;
  ret (JObj [("message", JStr ("New goal set: " +:+ py_str goal))]).

Definition list_containers : M E json :=
  containers <- call ContainersList ;;
  ret (JObj [("containers",
              JArr (map (fun c => JObj [("id", JStr (py_str_prefix 12 (c_id c)));
                                        ("name", JStr (c_name c));
                                        ("status", JStr (c_status c))])
                        containers))]).

Definition decode (bytes : string) : M E string :=
  match utf8_decode bytes with
  | Some s => ret s
  | None => raise (UnicodeDecodeError (utf8_error bytes))
  end.

Definition get_container_logs (name lines : json) : M E json :=
  container <- call (ContainersGet name) ;;
  bytes <- call (Logs container lines) ;;
  logs <- decode bytes ;;
  ret (JObj [("logs", JStr logs)]).

Definition execute_in_container (name command : json) : M E json :=
  container <- call (ContainersGet name) ;;
  result <- call (ExecRun container command) ;;
  output <- decode (snd result) ;;
  ret (JObj [("exit_code", JInt (fst result)); ("output", JStr output)]).

(** The body of a handler on its bound arguments. *)
Definition handler_body (h : handler) (b : bound_args) : M E json :=
  match h with
  | h_create_container => create_container (arg b "name") (arg b "image") (extra b)
  | h_delete_container => delete_container (arg b "name")
  | h_modify_container => modify_container (arg b "name") (extra b)
  | h_set_goal => set_goal (arg b "goal")
  | h_list_containers => list_containers
  | h_get_container_logs => get_container_logs (arg b "name") (arg b "lines")
  | h_execute_in_container => execute_in_container (arg b "name") (arg b "command")
  end.

(** [await action_function( **parameters)], line 87. Calling an
    [async def] method binds the arguments and yields a coroutine, whose
    body runs under [await]. Calling a plain [def] method runs the body
    at once and yields its return value, a dict, which [await] rejects. *)
Definition call_and_await (h : handler) (parameters : json) : M E json :=
  kw <- lift (unpack_mapping (handler_sig h) parameters) ;;
  b <- lift (bind_arguments (handler_sig h) kw) ;;
  if is_async (handler_sig h) then
    handler_body h b
  else
    handler_body h b ;;;
    raise (TypeError "object dict can't be used in 'await' expression").

(** [self.action_dispatch.get(action)]: the key must be hashable. *)
Definition dispatch_get (action : json) : Res (option handler) :=
  match action with
  | JStr a => Ok (action_dispatch !! a)
  | JArr _ | JObj _ =>
      Raise (TypeError ("unhashable type: '" +:+ py_type_name action +:+ sq))
  | _ => Ok None
  end.

(** [execute_action], lines 83-89 *)
Definition execute_action (action parameters : json) : M E json :=
  action_function <- lift (dispatch_get action) ;;
  match action_function with
  | Some h => call_and_await h parameters
  | None => ret (JObj [("error", JStr ("Unknown action: " +:+ py_str action))])
  end.

(* ------------------------------------------------------------------- *)
(** *** The background loop, lines 143-159 *)

(** The [try] block of one iteration. *)
Definition loop_body : M E unit :=
  decision <- think ;;
  log INFO ("AI Decision: " +:+ json_dumps (Some 2) decision) ;;;
  action <- lift (py_getitem decision "action") ;;
  (if py_ne_str action "none" then
     action' <- lift (py_getitem decision "action") ;;
     parameters <- lift (py_getitem decision "parameters") ;;
     result <- execute_action action' parameters ;;
     log INFO ("Action Result: " +:+ json_dumps (Some 2) result)
   else ret tt) ;;;
  sleep 60.

(** One iteration of [while True]: the [try] block and its
    [except Exception] clause. *)
Definition ai_loop_iter : M E unit :=
  try_except loop_body is_Exception
    (fun e => log ERROR ("Error in AI loop: " +:+ exn_str e) ;;; sleep 60).

(** The first [n] iterations of [ai_loop]. The result is [Ok] when the
    loop is about to start iteration [n + 1], and [Raise e] when [e]
    left the [while] loop and ended the task. *)
Fixpoint ai_loop (n : nat) : M E unit :=
  match n with
  | O => ret tt
  | S k => ai_loop_iter ;;; ai_loop k
  end.

(* ------------------------------------------------------------------- *)
(** *** The endpoints, lines 170-195 *)

(** [POST /interact]; the request body is not used. *)
Definition interact_with_ai (user_input : string) : M E json :=
  decision <- think ;;
  action <- lift (py_getitem decision "action") ;;
  parameters <- lift (py_getitem decision "parameters") ;;
  result <- execute_action action parameters ;;
  thought_process <- lift (py_getitem decision "thought_process") ;;
  action' <- lift (py_getitem decision "action") ;;
  explanation <- lift (py_getitem decision "explanation") ;;
  ret (JObj [("ai_thought_process", thought_process);
             ("ai_action", action');
             ("ai_explanation", explanation);
             ("action_result", result)]).

(** [GET /system_state] *)
Definition get_system_state_endpoint : M E json := get_system_state.

(** [GET /ai_goals] *)
Definition get_ai_goals : M E json :=
  gs <- get_goals ;;
  ret (JObj [("goals", JArr gs)]).

(** [GET /ai_memory] *)
Definition get_ai_memory : M E json :=
  mem <- get_memory ;;
  ret (JObj [("memory", JArr mem)]).

End AutonomousAI.

(* ===================================================================== *)
(** ** A test double for the collaborators *)
(* ===================================================================== *)

(** A scripted oracle and an in-memory container pool, used to run the
    model on concrete inputs. *)
Module Mock.

(** What the scripted oracle does on one call: it answers with a text,
    or fails with an error. *)
Inductive reply : Type :=
| Answer (text : string)
| Fail (msg : string).

Record ext : Type := mkExt {
  replies : list reply;            (* the oracle's script, call by call *)
  containers : list Container
}.

Definition find_container (n : string) (cs : list Container) : option Container :=
  find (fun c => String.eqb (c_name c) n) cs.

Definition not_found (n : string) : exn :=
  DockerException ("404 Client Error: Not Found (No such container: " +:+ n +:+ ")").

Definition mock_perform (A : Type) (c : extcall A) (e : ext) : Res A * ext :=
  match c in extcall T return Res T * ext with
  | Ainvoke _ =>
      match replies e with
      | Answer text :: rest => (Ok text, mkExt rest (containers e))
    | Fail msg :: rest => (Raise (OracleError msg), mkExt rest (containers e))
      | [] => (Raise (OracleError "connection refused"), e)
      end
  | ContainersList => (Ok (containers e), e)
  | ImagesList => (Ok (map c_image_tags (containers e)), e)
  | NetworksList => (Ok ["bridge"], e)
  | VolumesList => (Ok [], e)
  | ContainersRun image name _ =>
      match image, name with
      | JStr i, JStr n =>
          let c := mkContainer "0f1e2d3c4b5a69788796a5b4c3d2e1f0" n "running" [i] in
          (Ok c, mkExt (replies e) (containers e ++ [c]))
      | _, _ => (Raise (DockerException "400 Client Error: Bad Request"), e)
      end
  | ContainersGet name =>
      match name with
      | JStr n =>
          match find_container n (containers e) with
          | Some c => (Ok c, e)
          | None => (Raise (not_found n), e)
          end
      | _ => (Raise (DockerException "400 Client Error: Bad Request"), e)
      end
  | Remove c =>
      (Ok tt, mkExt (replies e)
                (List.filter (fun c' => negb (String.eqb (c_name c') (c_name c))) (containers e)))
  | Update _ _ => (Ok tt, e)
  | Logs _ _ => (Ok "", e)
  | ExecRun _ _ => (Ok (0%Z, ""), e)
  end.

#[export] Instance collaborators : Collaborators ext := {
  perform := mock_perform;
  clock_now := fun e => ("2024-05-01T12:00:00.000000", e)
}.

(** A compact serialiser, without escapes. *)
Fixpoint dumps (j : json) : string :=
  match j with
  | JNull => "null"
  | JBool true => "true"
  | JBool false => "false"
  | JInt z => pretty z
  | JFloat r => r
  | JStr s => dq +:+ s +:+ dq
  | JArr items => "[" +:+ String.concat ", " (map dumps items) +:+ "]"
  | JObj fields =>
      "{" +:+ String.concat ", "
                (map (fun kv => dq +:+ fst kv +:+ dq +:+ ": " +:+ dumps (snd kv)) fields)
          +:+ "}"
  end.

(** Decisions an oracle may send. *)
Definition delete_db : json :=
  JObj [("thought_process", JStr "db has exited");
        ("action", JStr "delete_container");
        ("parameters", JObj [("name", JStr "db")]);
        ("explanation", JStr "Removing the stopped database")].

Definition delete_unnamed : json :=
  JObj [("thought_process", JStr "cleaning up");
        ("action", JStr "delete_container");
        ("parameters", JObj []);
        ("explanation", JStr "Removing a container")].

Definition bare_none : json := JObj [("action", JStr "none")].

Definition known_decisions : list json := [delete_db; delete_unnamed; bare_none].

(** A text of decimal digits only. *)
Fixpoint all_digits (s : string) : bool :=
  match s with
  | EmptyString => true
  | String c rest => (Nat.leb 48 (nat_of_ascii c) && Nat.leb (nat_of_ascii c) 57)
                     && all_digits rest
  end.

(** An integer literal of more than 4300 digits, the interpreter's
    default limit for the conversion of a string to an integer. *)
Definition over_digit_limit (s : string) : bool :=
  all_digits s && Nat.ltb 4300 (String.length s)
  && match s with String "0" _ => false | _ => true end.

(** A decoder that knows the texts of [known_decisions], refuses an
    integer over the digit limit with a [ValueError], and rejects
    everything else as not being JSON. *)
Definition loads (s : string) : loads_outcome :=
  match find (fun d => String.eqb s (dumps d)) known_decisions with
  | Some d => Loaded d
  | None =>
      if over_digit_limit s
      then LoadsFailed (DigitLimit "Exceeds the limit (4300 digits) for integer string conversion")
      else NotJSON "Expecting value: line 1 column 1 (char 0)"
  end.

Definition decode_error (bytes : string) : string :=
  "'utf-8' codec can't decode byte 0xff in position 0: invalid start byte".

#[export] Instance pylib : PyLib := {
  json_loads := loads;
  json_dumps := fun _ j => dumps j;
  py_repr_compound := dumps;
  utf8_decode := fun bytes => Some bytes;
  utf8_error := decode_error;
  module_name := "podai"
}.

Definition web : Container := mkContainer "abc123" "web" "running" ["nginx:latest"].
Definition db : Container := mkContainer "def456" "db" "exited" ["postgres:16"].

(** A fresh process: no memory, no goals, two containers, and an oracle
    that will answer [rs]. *)
Definition start (rs : list reply) : World ext :=
  mkWorld [] [] (mkExt rs [web; db]) [].

(** The oracle answers with text that is not JSON. *)
Definition malformed_run : World ext := start [Answer "not json"].

(** The oracle asks for the removal of [db]. *)
Definition delete_db_run : World ext := start [Answer (dumps delete_db)].

(** The oracle asks for a removal and names no container. *)
Definition delete_unnamed_run : World ext := start [Answer (dumps delete_unnamed)].

(** The oracle answers with an object that has an action and nothing else. *)
Definition bare_none_run : World ext := start [Answer (dumps bare_none)].

(** The oracle is down: every call fails. *)
Definition oracle_down_run : World ext := start [].

(** An integer literal of 4301 digits. *)
Definition long_integer : string := String.concat "" (repeat "1" 4301).

(** The oracle answers with that integer. *)
Definition long_integer_run : World ext := start [Answer long_integer].

(** Twelve stored decisions to wait. *)
Definition past_decisions : list json :=
  map (fun i => JObj [("timestamp", JStr "2024-05-01T11:00:00.000000");
                      ("decision", JObj [("thought_process", JStr "nothing to do");
                                         ("action", JStr "none");
                                         ("parameters", JObj [("cycle", JInt i)]);
                                         ("explanation", JStr "waiting")])])
      [1; 2; 3; 4; 5; 6; 7; 8; 9; 10; 11; 12]%Z.

(** A process that has run for twelve cycles. *)
Definition busy_run : World ext :=
  mkWorld past_decisions [] (mkExt [Answer "not json"] [web; db]) [].

End Mock.

(** A process whose task is cancelled while it waits for the oracle, as
    at shutdown: the snapshot succeeds on an empty pool, and the oracle
    call raises [asyncio.CancelledError]. *)
Module Shutdown.

Definition cancelled_perform (A : Type) (c : extcall A) (e : unit) : Res A * unit :=
  match c in extcall T return Res T * unit with
  | ContainersList => (Ok [], e)
  | ImagesList => (Ok [], e)
  | NetworksList => (Ok [], e)
  | VolumesList => (Ok [], e)
  | _ => (Raise CancelledError, e)
  end.

#[export] Instance collaborators : Collaborators unit := {
  perform := cancelled_perform;
  clock_now := fun e => ("2024-05-01T12:00:00.000000", e)
}.

Definition start : World unit := mkWorld [] [] tt [].

End Shutdown.

(** More decisions for the scripted oracle: texts that decode to
    something other than a full decision. *)
Module Lab.

(** A JSON number: valid JSON, and no object. *)
Definition forty_two : json := JInt 42.

(** An object without the key ["action"]. *)
Definition no_action : json :=
  JObj [("thought_process", JStr "thinking"); ("parameters", JObj [])].

(** An action to dispatch, and no parameters. *)
Definition no_parameters : json :=
  JObj [("thought_process", JStr "taking stock"); ("action", JStr "list_containers")].

(** A goal that is a number. *)
Definition numeric_goal : json :=
  JObj [("thought_process", JStr "planning");
        ("action", JStr "set_goal");
        ("parameters", JObj [("goal", JInt 5)]);
        ("explanation", JStr "Setting a goal")].

Definition known_decisions : list json :=
  [forty_two; no_action; no_parameters; numeric_goal].

Definition loads (s : string) : loads_outcome :=
  match find (fun d => String.eqb s (Mock.dumps d)) known_decisions with
  | Some d => Loaded d
  | None => NotJSON "Expecting value: line 1 column 1 (char 0)"
  end.

Definition pylib : PyLib := {|
  json_loads := loads;
  json_dumps := fun _ j => Mock.dumps j;
  py_repr_compound := Mock.dumps;
  utf8_decode := fun bytes => Some bytes;
  utf8_error := Mock.decode_error;
  module_name := "podai"
|}.

(** A decoder for bytes that rejects everything, as for output that is
    not UTF-8. *)
Definition binary_pylib : PyLib := {|
  json_loads := loads;
  json_dumps := fun _ j => Mock.dumps j;
  py_repr_compound := Mock.dumps;
  utf8_decode := fun _ => None;
  utf8_error := Mock.decode_error;
  module_name := "podai"
|}.

(** A fresh process whose oracle will answer with the text of [d]. *)
Definition answering (d : json) : World Mock.ext :=
  Mock.start [Mock.Answer (Mock.dumps d)].

(** A process whose goal list holds a number. *)
Definition poisoned_run : World Mock.ext :=
  mkWorld [] [JStr "keep the pool small"; JInt 5]
    (Mock.mkExt [Mock.Answer "not json"] [Mock.web; Mock.db]) [].

(** A process whose Docker daemon holds a container that exits with a
    failure: see [failing_perform]. *)
Definition failing_perform (A : Type) (c : extcall A) (e : Mock.ext) : Res A * Mock.ext :=
  match c in extcall T return Res T * Mock.ext with
  | ExecRun _ _ => (Ok (127%Z, "sh: 1: frobnicate: not found"), e)
  | ContainersList => (Raise (DockerException "Error while fetching server API version"), e)
  | c' => Mock.mock_perform _ c' e
  end.

Definition failing_collaborators : Collaborators Mock.ext := {|
  perform := failing_perform;
  clock_now := fun e => ("2024-05-01T12:00:00.000000", e)
|}.

End Lab.

(* ===================================================================== *)
(** ** Notions used by the properties *)
(* ===================================================================== *)

(** The sleeps of a trace, in order. *)
Fixpoint sleeps (t : list Event) : list Z :=
  match t with
  | [] => []
  | ESleep secs :: rest => secs :: sleeps rest
  | _ :: rest => sleeps rest
  end.

Definition sleeps_of {E} (w : World E) : list Z := sleeps (trace w).

(** The collaborators fail with errors only: whatever they raise is an
    instance of [Exception] (a backend or oracle failure), not a
    cancellation or an interrupt. *)
Definition errors_only (E : Type) `{Collaborators E} : Prop :=
  forall (A : Type) (c : extcall A) (e : E) (x : exn),
    fst (perform c e) = Raise x -> is_Exception x = true.

(** [m] leaves the observation [f] of the world as it was. *)
Definition preserves {E X A} (f : World E -> X) (m : M E A) : Prop :=
  forall w, f (snd (m w)) = f w.

(** [m] only ever extends the memory at its end. *)
Definition extends_memory {E A} (m : M E A) : Prop :=
  forall w, memory w `prefix_of` memory (snd (m w)).

(** Whatever [m] raises is an instance of [Exception]. *)
Definition raises_errors {E A} (m : M E A) : Prop :=
  forall w e w', m w = (Raise e, w') -> is_Exception e = true.

Definition res_errors {A} (r : Res A) : Prop :=
  forall e, r = Raise e -> is_Exception e = true.

(** [m] sleeps once, for [secs], when it returns, and not at all when it
    raises. *)
Definition sleeps_once {E A} (secs : Z) (m : M E A) : Prop :=
  forall w,
    match m w with
    | (Ok _, w') => sleeps_of w' = sleeps_of w ++ [secs]
    | (Raise _, w') => sleeps_of w' = sleeps_of w
    end.

(** The memory entry [think] appends for a decoded decision, line 77. *)
Definition memory_entry (timestamp : string) (decision : json) : json :=
  JObj [("timestamp", JStr timestamp); ("decision", decision)].

(** The calls on the oracle in a trace. *)
Definition is_oracle_call (ev : Event) : bool :=
  match ev with
  | ECall c => match c with Ainvoke _ => true | _ => false end
  | _ => false
  end.

Definition oracle_calls (t : list Event) : nat := length (List.filter is_oracle_call t).

Definition oracle_calls_of {E} (w : World E) : nat := oracle_calls (trace w).

(** The calls on the Docker client in a trace. *)
Definition is_backend_call (ev : Event) : bool :=
  match ev with
  | ECall c => match c with Ainvoke _ => false | _ => true end
  | _ => false
  end.

Definition is_string (v : json) : bool :=
  match v with JStr _ => true | _ => false end.

(** The values a dict accepts as a key: everything [json.loads] yields
    but lists and dicts. *)
Definition py_hashable (v : json) : bool :=
  match v with JArr _ | JObj _ => false | _ => true end.

(** [m] only ever extends the goal list at its end. *)
Definition extends_goals {E A} (m : M E A) : Prop :=
  forall w, goals w `prefix_of` goals (snd (m w)).

(** The keywords that [**kwargs] collects for a signature. *)
Definition extra_keywords (sg : signature) (kw : dict) : dict :=
  List.filter (fun kv => negb (is_param sg (fst kv))) kw.

(* ===================================================================== *)
(** ** Frame lemmas *)
(* ===================================================================== *)

Lemma tell_tell {E} (a b : list Event) (w : World E) :
  tell b (tell a w) = tell (a ++ b) w.
Proof. unfold tell; simpl. by rewrite <- app_assoc. Qed.

Lemma sleeps_app (a b : list Event) : sleeps (a ++ b) = sleeps a ++ sleeps b.
Proof.
  induction a as [|ev a IH]; simpl; [done|].
  destruct ev; simpl; by rewrite ?IH.
Qed.

Create HintDb frame.

Section Frame.
Context {E X : Type} (f : World E -> X).

Lemma preserves_ret {A} (a : A) : preserves f (@ret E A a).
Proof. done. Qed.

Lemma preserves_raise {A} (e : exn) : preserves f (@raise E A e).
Proof. done. Qed.

Lemma preserves_lift {A} (r : Res A) : preserves f (@lift E A r).
Proof. done. Qed.

Lemma preserves_get_memory : preserves f (@get_memory E).
Proof. done. Qed.

Lemma preserves_get_goals : preserves f (@get_goals E).
Proof. done. Qed.

Lemma preserves_bind {A B} (m : M E A) (k : A -> M E B) :
  preserves f m -> (forall a, preserves f (k a)) -> preserves f (bind m k).
Proof.
  intros Hm Hk w. unfold bind. specialize (Hm w).
  destruct (m w) as [[a|e] w1]; simpl in *; [|done].
  by rewrite Hk.
Qed.

Lemma preserves_try_except {A} (m : M E A) catches (h : exn -> M E A) :
  preserves f m -> (forall e, preserves f (h e)) -> preserves f (try_except m catches h).
Proof.
  intros Hm Hh w. unfold try_except. specialize (Hm w).
  destruct (m w) as [[a|e] w1]; simpl in *; [done|].
  destruct (catches e); [|done]. by rewrite Hh.
Qed.
End Frame.

#[export] Hint Resolve preserves_ret preserves_raise preserves_lift
  preserves_get_memory preserves_get_goals : frame.

(** Splits a goal [preserves f m] along the structure of [m]. *)
Ltac frame_step :=
  match goal with
  | |- preserves _ (bind _ _) => apply preserves_bind; [| intros ?]
  | |- preserves _ (try_except _ _ _) => apply preserves_try_except; [| intros ?]
  | |- preserves _ (if ?b then _ else _) => destruct b
  | |- preserves _ (match ?x with _ => _ end) => destruct x
  | |- preserves _ _ => solve [eauto with frame]
  end.

Ltac frame := repeat frame_step.

(** What every observation [f] of the world keeps, once the primitive
    effects keep it: the snapshot, the oracle call, the handlers and the
    dispatcher are built from collaborator calls, log records, the clock
    and [self.goals.append] only. *)
Section FrameOps.
Context `{PyLib} {E : Type} `{Collaborators E} {X : Type} (f : World E -> X).
Hypothesis f_call : forall A (c : extcall A), preserves f (call c).
Hypothesis f_log : forall lvl msg, preserves f (@log E lvl msg).
Hypothesis f_goals_append : forall x, preserves f (@goals_append E x).

Hint Resolve f_call f_log f_goals_append : frame.

Lemma frame_get_system_state : preserves f get_system_state.
Proof. unfold get_system_state. frame. Qed.

Lemma frame_ask_oracle : preserves f ask_oracle.
Proof. unfold ask_oracle. pose proof frame_get_system_state. frame. Qed.

Lemma frame_decode bytes : preserves f (decode bytes).
Proof. unfold decode. frame. Qed.

Hint Resolve frame_decode : frame.

Lemma frame_handler_body h b : preserves f (handler_body h b).
Proof.
  destruct h; simpl;
    unfold create_container, delete_container, modify_container, set_goal,
      list_containers, get_container_logs, execute_in_container; frame.
Qed.

Lemma frame_call_and_await h p : preserves f (call_and_await h p).
Proof. unfold call_and_await. pose proof frame_handler_body. frame. Qed.

Lemma frame_execute_action a p : preserves f (execute_action a p).
Proof. unfold execute_action. pose proof frame_call_and_await. frame. Qed.

(** With the clock and [self.memory.append] as well, [think] keeps [f]. *)
Hypothesis f_now : preserves f now_isoformat.
Hypothesis f_memory_append : forall x, preserves f (@memory_append E x).

Hint Resolve f_now f_memory_append : frame.

Lemma frame_record_decision response : preserves f (record_decision response).
Proof. unfold record_decision. frame. Qed.

Lemma frame_think : preserves f think.
Proof.
  unfold think. pose proof frame_ask_oracle. pose proof frame_record_decision. frame.
Qed.
End FrameOps.

Section Memory.
Context `{PyLib} {E : Type} `{Collaborators E}.

Lemma memory_log lvl msg : preserves memory (@log E lvl msg).
Proof. done. Qed.

Lemma memory_sleep secs : preserves memory (@sleep E secs).
Proof. done. Qed.

Lemma memory_call {A} (c : extcall A) : preserves memory (call c).
Proof. intros w. unfold call. by destruct (perform c (env w)). Qed.

Lemma memory_goals_append x : preserves memory (@goals_append E x).
Proof. done. Qed.

Lemma memory_get_system_state : preserves memory get_system_state.
Proof.
  apply frame_get_system_state; auto using @memory_call, memory_log, memory_goals_append.
Qed.

Lemma memory_ask_oracle : preserves memory ask_oracle.
Proof.
  apply frame_ask_oracle; auto using @memory_call, memory_log, memory_goals_append.
Qed.

Lemma memory_handler_body h b : preserves memory (handler_body h b).
Proof.
  apply frame_handler_body; auto using @memory_call, memory_log, memory_goals_append.
Qed.

Lemma memory_execute_action a p : preserves memory (execute_action a p).
Proof.
  apply frame_execute_action; auto using @memory_call, memory_log, memory_goals_append.
Qed.

Hint Resolve memory_log memory_sleep memory_execute_action : frame.

(** The one place where the memory changes: [record_decision] appends
    one entry for a decoded response and nothing otherwise. *)
Lemma record_decision_memory response w :
  match json_loads response with
  | Loaded d =>
      fst (record_decision response w) = Ok d /\
      exists ts, memory (snd (record_decision response w)) = memory w ++ [memory_entry ts d]
  | NotJSON _ =>
      record_decision response w
      = (Ok fallback_decision, tell [ELog ERROR ("Invalid JSON response from AI: " +:+ response)] w)
  | LoadsFailed err =>
      record_decision response w = (Raise (loads_exn err), w)
  end.
Proof.
  unfold record_decision, try_except, bind, lift, py_json_loads.
  destruct (json_loads response) as [d|msg|err]; [|done|by destruct err].
  unfold now_isoformat. destruct (clock_now (env w)) as [ts e'] eqn:Hc; simpl.
  split; [done|]. by exists ts.
Qed.

Lemma think_memory w :
  memory (snd (think w)) = memory w \/
  exists ts d, fst (think w) = Ok d /\ memory (snd (think w)) = memory w ++ [memory_entry ts d].
Proof.
  unfold think, bind. pose proof (memory_ask_oracle w) as Hm.
  destruct (ask_oracle w) as [[response|e] w1]; simpl in Hm; [|by left].
  pose proof (record_decision_memory response w1) as Hr.
  destruct (json_loads response) as [d|msg|err].
  - right. destruct Hr as [Hd [ts Hts]]. exists ts, d. by rewrite Hts, Hm.
  - left. by rewrite Hr.
  - left. by rewrite Hr.
Qed.

Lemma extends_of_preserves {A} (m : M E A) : preserves memory m -> extends_memory m.
Proof. intros Hm w. by rewrite Hm. Qed.

Lemma extends_bind {A B} (m : M E A) (k : A -> M E B) :
  extends_memory m -> (forall a, extends_memory (k a)) -> extends_memory (bind m k).
Proof.
  intros Hm Hk w. unfold bind. specialize (Hm w).
  destruct (m w) as [[a|e] w1]; simpl in *; [|done].
  etrans; [exact Hm | apply Hk].
Qed.

Lemma extends_try_except {A} (m : M E A) catches (h : exn -> M E A) :
  extends_memory m -> (forall e, extends_memory (h e)) -> extends_memory (try_except m catches h).
Proof.
  intros Hm Hh w. unfold try_except. specialize (Hm w).
  destruct (m w) as [[a|e] w1]; simpl in *; [done|].
  destruct (catches e); [|done]. etrans; [exact Hm | apply Hh].
Qed.

Lemma extends_think : extends_memory think.
Proof.
  intros w. destruct (think_memory w) as [->|(ts & d & _ & ->)]; [done|].
  by apply prefix_app_r.
Qed.

Lemma extends_loop_body : extends_memory loop_body.
Proof.
  unfold loop_body. apply extends_bind; [apply extends_think|]. intros d.
  apply extends_of_preserves. frame.
Qed.

Lemma extends_ai_loop_iter : extends_memory ai_loop_iter.
Proof.
  unfold ai_loop_iter. apply extends_try_except; [apply extends_loop_body|].
  intros e. apply extends_of_preserves. frame.
Qed.

Lemma extends_ai_loop n : extends_memory (ai_loop n).
Proof.
  induction n as [|n IH]; simpl.
  - by apply extends_of_preserves.
  - apply extends_bind; [apply extends_ai_loop_iter | done].
Qed.

Lemma extends_interact u : extends_memory (interact_with_ai u).
Proof.
  unfold interact_with_ai. apply extends_bind; [apply extends_think|]. intros d.
  apply extends_of_preserves. frame.
Qed.

End Memory.

(* ===================================================================== *)
(** ** What can be raised *)
(* ===================================================================== *)

Create HintDb errors.

Lemma res_errors_ok {A} (a : A) : res_errors (Ok a).
Proof. by intros e He. Qed.

Lemma res_getitem v k : res_errors (py_getitem v k).
Proof. intros e He. unfold py_getitem in He. repeat case_match; by simplify_eq. Qed.

Lemma res_py_join_from i sep l : res_errors (py_join_from i sep l).
Proof.
  revert i. induction l as [|x rest IH]; intros i e He; simpl in He; [done|].
  destruct x; simplify_eq; try done.
  destruct rest as [|y rest]; [done|].
  destruct (py_join_from (S i) sep (y :: rest)) as [t|e'] eqn:Hj; simplify_eq.
  by eapply IH.
Qed.

Lemma res_goals_str gs : res_errors (goals_str gs).
Proof. destruct gs; [apply res_errors_ok | apply res_py_join_from]. Qed.

Lemma res_unpack_mapping `{PyLib} sg p : res_errors (unpack_mapping sg p).
Proof. intros e He. unfold unpack_mapping in He. repeat case_match; by simplify_eq. Qed.

Lemma check_keywords_TypeError sg kw e :
  check_keywords sg kw = Some e -> exists msg, e = TypeError msg.
Proof.
  induction kw as [|[k v] rest IH]; simpl; [done|].
  repeat case_match; intros He; simplify_eq; eauto.
Qed.

Lemma res_bind_arguments sg kw : res_errors (bind_arguments sg kw).
Proof.
  intros e He. unfold bind_arguments in He.
  destruct (check_keywords sg kw) as [e'|] eqn:Hc.
  - destruct (check_keywords_TypeError _ _ _ Hc) as [msg ->]. by simplify_eq.
  - repeat case_match; by simplify_eq.
Qed.

Lemma res_json_loads `{PyLib} s : res_errors (py_json_loads s).
Proof.
  intros e He. unfold py_json_loads in He.
  destruct (json_loads s) as [v|msg|[msg|msg]]; by simplify_eq.
Qed.

Lemma res_dispatch_get a : res_errors (dispatch_get a).
Proof. intros e He. unfold dispatch_get in He. repeat case_match; by simplify_eq. Qed.

#[export] Hint Resolve res_errors_ok res_getitem res_goals_str res_json_loads res_unpack_mapping
  res_bind_arguments res_dispatch_get : errors.

Section Raising.
Context {E : Type}.

Lemma raises_ret {A} (a : A) : raises_errors (@ret E A a).
Proof. intros w e w' Heq. by simplify_eq. Qed.

Lemma raises_raise {A} (e : exn) : is_Exception e = true -> raises_errors (@raise E A e).
Proof. intros He w e' w' Heq. unfold raise in Heq. by simplify_eq. Qed.

Lemma raises_lift {A} (r : Res A) : res_errors r -> raises_errors (@lift E A r).
Proof. intros Hr w e w' Heq. unfold lift in Heq. simplify_eq. by apply Hr. Qed.

Lemma raises_bind {A B} (m : M E A) (k : A -> M E B) :
  raises_errors m -> (forall a, raises_errors (k a)) -> raises_errors (bind m k).
Proof.
  intros Hm Hk w e w' Heq. unfold bind in Heq.
  destruct (m w) as [[a|e1] w1] eqn:Hmw.
  - by eapply Hk.
  - simplify_eq. by eapply Hm.
Qed.

Lemma raises_try_except {A} (m : M E A) catches (h : exn -> M E A) :
  raises_errors m -> (forall e, raises_errors (h e)) -> raises_errors (try_except m catches h).
Proof.
  intros Hm Hh w e w' Heq. unfold try_except in Heq.
  destruct (m w) as [[a|e1] w1] eqn:Hmw; [by simplify_eq|].
  destruct (catches e1).
  - by eapply Hh.
  - simplify_eq. by eapply Hm.
Qed.

Lemma raises_emit (ev : Event) : raises_errors (@emit E ev).
Proof. intros w e w' Heq. unfold emit in Heq. by simplify_eq. Qed.

Lemma raises_log lvl msg : raises_errors (@log E lvl msg).
Proof. apply raises_emit. Qed.

Lemma raises_sleep secs : raises_errors (@sleep E secs).
Proof. apply raises_emit. Qed.

Lemma raises_get_memory : raises_errors (@get_memory E).
Proof. intros w e w' Heq. unfold get_memory in Heq. by simplify_eq. Qed.

Lemma raises_get_goals : raises_errors (@get_goals E).
Proof. intros w e w' Heq. unfold get_goals in Heq. by simplify_eq. Qed.

Lemma raises_memory_append x : raises_errors (@memory_append E x).
Proof. intros w e w' Heq. unfold memory_append in Heq. by simplify_eq. Qed.

Lemma raises_goals_append x : raises_errors (@goals_append E x).
Proof. intros w e w' Heq. unfold goals_append in Heq. by simplify_eq. Qed.

End Raising.

#[export] Hint Resolve raises_ret raises_log raises_sleep raises_get_memory
  raises_get_goals raises_memory_append raises_goals_append : errors.

(** Splits a goal [raises_errors m] along the structure of [m]. *)
Ltac errors_step :=
  match goal with
  | |- raises_errors (bind _ _) => apply raises_bind; [| intros ?]
  | |- raises_errors (try_except _ _ _) => apply raises_try_except; [| intros ?]
  | |- raises_errors (lift _) => apply raises_lift
  | |- raises_errors (raise _) => apply raises_raise; reflexivity
  | |- raises_errors (if ?b then _ else _) => destruct b
  | |- raises_errors (match ?x with _ => _ end) => destruct x
  | |- _ => solve [eauto with errors]
  end.

Ltac errors := repeat errors_step.

Section Durability.
Context `{PyLib} {E : Type} `{Collaborators E}.
Hypothesis collaborators_fail_with_errors : errors_only E.

Lemma raises_call {A} (c : extcall A) : raises_errors (call c).
Proof.
  intros w e w' Heq. unfold call in Heq.
  destruct (perform c (env w)) as [r e1] eqn:Hp. simplify_eq.
  apply (collaborators_fail_with_errors A c (env w)). by rewrite Hp.
Qed.

Lemma raises_now : raises_errors now_isoformat.
Proof.
  intros w e w' Heq. unfold now_isoformat in Heq.
  destruct (clock_now (env w)). by simplify_eq.
Qed.

Hint Resolve raises_call raises_now : errors.

Lemma raises_think : raises_errors think.
Proof.
  unfold think, ask_oracle, get_system_state, record_decision. errors.
Qed.

Lemma raises_handler_body h b : raises_errors (handler_body h b).
Proof.
  destruct h; simpl;
    unfold create_container, delete_container, modify_container, set_goal,
      list_containers, get_container_logs, execute_in_container, decode; errors.
Qed.

Lemma raises_execute_action a p : raises_errors (execute_action a p).
Proof.
  unfold execute_action, call_and_await. pose proof raises_handler_body. errors.
Qed.

Lemma raises_loop_body : raises_errors loop_body.
Proof.
  unfold loop_body. pose proof raises_think. pose proof raises_execute_action. errors.
Qed.

Lemma ai_loop_iter_returns w : fst (ai_loop_iter w) = Ok tt.
Proof.
  unfold ai_loop_iter, try_except.
  destruct (loop_body w) as [[[]|e] w1] eqn:Hb; [done|].
  by rewrite (raises_loop_body _ _ _ Hb).
Qed.

End Durability.

(* ===================================================================== *)
(** ** Sleeping *)
(* ===================================================================== *)

Section Sleeping.
Context `{PyLib} {E : Type} `{Collaborators E}.

Lemma sleeps_log lvl msg : preserves sleeps_of (@log E lvl msg).
Proof.
  intros w. unfold sleeps_of, log, emit, tell; simpl.
  rewrite sleeps_app; simpl. by rewrite app_nil_r.
Qed.

Lemma sleeps_call {A} (c : extcall A) : preserves sleeps_of (call c).
Proof.
  intros w. unfold sleeps_of, call. destruct (perform c (env w)); simpl.
  rewrite sleeps_app; simpl. by rewrite app_nil_r.
Qed.

Lemma sleeps_now : preserves sleeps_of now_isoformat.
Proof. intros w. unfold now_isoformat. by destruct (clock_now (env w)). Qed.

Lemma sleeps_memory_append x : preserves sleeps_of (@memory_append E x).
Proof. done. Qed.

Lemma sleeps_goals_append x : preserves sleeps_of (@goals_append E x).
Proof. done. Qed.

Lemma sleeps_think : preserves sleeps_of think.
Proof.
  apply frame_think;
    auto using @sleeps_call, sleeps_log, sleeps_now, sleeps_memory_append, sleeps_goals_append.
Qed.

Lemma sleeps_execute_action a p : preserves sleeps_of (execute_action a p).
Proof.
  apply frame_execute_action; auto using @sleeps_call, sleeps_log, sleeps_goals_append.
Qed.

Lemma sleeps_once_sleep secs : sleeps_once secs (@sleep E secs).
Proof.
  intros w. unfold sleep, emit, sleeps_of, tell; simpl. by rewrite sleeps_app.
Qed.

Lemma sleeps_once_bind {A B} secs (m : M E A) (k : A -> M E B) :
  preserves sleeps_of m -> (forall a, sleeps_once secs (k a)) ->
  sleeps_once secs (bind m k).
Proof.
  intros Hm Hk w. unfold bind. specialize (Hm w).
  destruct (m w) as [[a|e] w1]; simpl in Hm; [|done].
  specialize (Hk a w1). destruct (k a w1) as [[b|e] w2]; by rewrite Hk, Hm.
Qed.

Lemma sleeps_once_loop_body : sleeps_once 60 loop_body.
Proof.
  unfold loop_body.
  apply sleeps_once_bind; [apply sleeps_think | intros d].
  apply sleeps_once_bind; [apply sleeps_log | intros _].
  apply sleeps_once_bind; [apply preserves_lift | intros action].
  apply sleeps_once_bind; [| intros _; apply sleeps_once_sleep].
  pose proof sleeps_execute_action. pose proof sleeps_log. frame.
Qed.

(** What the [except] clause does with an error of the [try] block. *)
Lemma ai_loop_iter_catches w e w1 :
  loop_body w = (Raise e, w1) -> is_Exception e = true ->
  ai_loop_iter w
  = (Ok tt, tell [ELog ERROR ("Error in AI loop: " +:+ exn_str e); ESleep 60] w1).
Proof.
  intros Hb He. unfold ai_loop_iter, try_except. rewrite Hb, He.
  unfold bind, log, sleep, emit. by rewrite tell_tell.
Qed.

(** An iteration that returns has slept once, for 60 seconds. *)
Lemma ai_loop_iter_sleeps w :
  fst (ai_loop_iter w) = Ok tt ->
  sleeps_of (snd (ai_loop_iter w)) = sleeps_of w ++ [60%Z].
Proof.
  unfold ai_loop_iter, try_except. pose proof (sleeps_once_loop_body w) as Hs.
  destruct (loop_body w) as [[[]|e] w1]; simpl; [done|].
  destruct (is_Exception e); [|done]. intros _.
  unfold bind, log, sleep, emit; simpl. rewrite tell_tell.
  unfold sleeps_of, tell in *; simpl. rewrite sleeps_app. simpl. by rewrite Hs.
Qed.

End Sleeping.

(* ===================================================================== *)
(** ** The dispatcher and one iteration, case by case *)
(* ===================================================================== *)

Lemma none_not_in_table : action_dispatch !! "none" = None.
Proof. vm_compute. reflexivity. Qed.

Lemma set_goal_in_table : action_dispatch !! "set_goal" = Some h_set_goal.
Proof. vm_compute. reflexivity. Qed.

Lemma delete_container_in_table : action_dispatch !! "delete_container" = Some h_delete_container.
Proof. vm_compute. reflexivity. Qed.

Lemma py_slice_from_drop {A} (l : list A) :
  py_slice_from (-10) l = drop (length l - 10) l.
Proof.
  unfold py_slice_from; simpl. f_equal. lia.
Qed.

(** A call that leaves a required parameter out fails while the
    arguments are bound. *)
Lemma bind_arguments_missing sg kw k :
  In k (required sg) -> dict_get k kw = None ->
  exists msg, bind_arguments sg kw = Raise (TypeError msg).
Proof.
  intros Hin Hk. unfold bind_arguments.
  destruct (check_keywords sg kw) as [e|] eqn:Hc.
  { destruct (check_keywords_TypeError _ _ _ Hc) as [msg ->]. by eexists. }
  assert (Hmiss : In k (List.filter (fun k => negb (dict_has k kw)) (required sg))).
  { apply filter_In. split; [done|]. unfold dict_has. by rewrite Hk. }
  destruct (List.filter (fun k => negb (dict_has k kw)) (required sg)) as [|m ms];
    [destruct Hmiss | by eexists].
Qed.

Section Cases.
Context `{PyLib} {E : Type} `{Collaborators E}.

Lemma execute_action_not_in_table (a : string) (p : json) (w : World E) :
  action_dispatch !! a = None ->
  execute_action (JStr a) p w
  = (Ok (JObj [("error", JStr ("Unknown action: " +:+ a))]), w).
Proof.
  intros Ha. unfold execute_action, bind, lift, dispatch_get. by rewrite Ha.
Qed.

Lemma execute_action_in_table (a : string) (h : handler) (p : json) (w : World E) :
  action_dispatch !! a = Some h ->
  execute_action (JStr a) p w = call_and_await h p w.
Proof.
  intros Ha. unfold execute_action, bind, lift, dispatch_get. by rewrite Ha.
Qed.

(** Awaiting [delete_container] on a mapping that gives the name runs
    its body on that name. *)
Lemma call_and_await_delete (name : json) (w : World E) :
  call_and_await h_delete_container (JObj [("name", name)]) w = delete_container name w.
Proof. reflexivity. Qed.

(** The action of a decision that is dispatched by name is not ["none"]. *)
Lemma in_table_not_none (a : string) (h : handler) :
  action_dispatch !! a = Some h -> py_ne_str (JStr a) "none" = true.
Proof.
  intros Ha. simpl. destruct (String.eqb_spec a "none") as [->|]; [|done].
  rewrite none_not_in_table in Ha. done.
Qed.

(** When [think] returns, either a decoded decision was stored with its
    timestamp, or the fallback was returned and nothing was stored. *)
Lemma think_returns (w w1 : World E) (d : json) :
  think w = (Ok d, w1) ->
  (exists ts, memory w1 = memory w ++ [memory_entry ts d]) \/
  (d = fallback_decision /\ memory w1 = memory w).
Proof.
  unfold think, bind. pose proof (memory_ask_oracle w) as Hm.
  destruct (ask_oracle w) as [[response|e] w0]; simpl in Hm; [|done].
  pose proof (record_decision_memory response w0) as Hr.
  destruct (json_loads response) as [d'|msg|err].
  - destruct Hr as [Hd [ts Hts]]. intros Heq. rewrite Heq in Hd, Hts; simpl in *.
    left. exists ts. simplify_eq. by rewrite Hts, Hm.
  - rewrite Hr. intros Heq. right. by simplify_eq.
  - rewrite Hr. intros Heq. discriminate Heq.
Qed.

(** The collaborator calls of [ask_oracle]: four listings, and the
    oracle on a prompt that renders the memory through [memory_str]. *)
Lemma ask_oracle_calls (w w1 : World E) (response : string) :
  ask_oracle w = (Ok response, w1) ->
  exists system_state goals_s,
    trace w1 = trace w ++ [ECall ContainersList; ECall ImagesList; ECall NetworksList;
                           ECall VolumesList;
                           ECall (Ainvoke (build_prompt system_state
                                             (memory_str (memory w)) goals_s))].
Proof.
  unfold ask_oracle, get_system_state, bind, call, ret, get_memory, get_goals, lift; simpl.
  destruct (perform ContainersList (env w)) as [[cs|?] e1]; simpl; [|done].
  destruct (perform ImagesList e1) as [[imgs|?] e2]; simpl; [|done].
  destruct (perform NetworksList e2) as [[nets|?] e3]; simpl; [|done].
  destruct (perform VolumesList e3) as [[vols|?] e4]; simpl; [|done].
  destruct (goals_str (goals w)) as [gs|?]; simpl; [|done].
  destruct (perform (Ainvoke _) e4) as [[r|?] e5] eqn:Hp; simpl; [|done].
  intros Heq. simplify_eq. simpl. do 2 eexists. by rewrite <- !app_assoc.
Qed.

(** An iteration whose decision says ["none"]: nothing is dispatched. *)
Lemma loop_body_none (w w1 : World E) (d a : json) :
  think w = (Ok d, w1) -> py_getitem d "action" = Ok a -> py_ne_str a "none" = false ->
  loop_body w
  = (Ok tt, tell [ELog INFO ("AI Decision: " +:+ json_dumps (Some 2) d); ESleep 60] w1).
Proof.
  intros Ht Ha Hn. unfold loop_body, bind. rewrite Ht.
  unfold log, emit, lift. rewrite Ha, Hn. unfold ret, sleep, emit.
  by rewrite tell_tell.
Qed.

(** An iteration whose decision names an action: the dispatcher runs on
    the decision's parameters, and its result goes to the log. *)
Lemma loop_body_dispatch (w w1 : World E) (d a p : json) :
  think w = (Ok d, w1) -> py_getitem d "action" = Ok a -> py_ne_str a "none" = true ->
  py_getitem d "parameters" = Ok p ->
  loop_body w
  = match execute_action a p (tell [ELog INFO ("AI Decision: " +:+ json_dumps (Some 2) d)] w1) with
    | (Ok r, w2) =>
        (Ok tt, tell [ELog INFO ("Action Result: " +:+ json_dumps (Some 2) r); ESleep 60] w2)
    | (Raise e, w2) => (Raise e, w2)
    end.
Proof.
  intros Ht Ha Hn Hp. unfold loop_body, bind. rewrite Ht.
  unfold log at 1. unfold emit at 1. unfold lift. rewrite Ha, Hn, Hp.
  destruct (execute_action a p _) as [[r|e] w2]; [|done].
  unfold log, sleep, emit. by rewrite tell_tell.
Qed.

Lemma ai_loop_iter_of_body (w w1 : World E) :
  loop_body w = (Ok tt, w1) -> ai_loop_iter w = (Ok tt, w1).
Proof. intros Hb. unfold ai_loop_iter, try_except. by rewrite Hb. Qed.

End Cases.

(* ===================================================================== *)
(** ** The properties of the specification *)
(* ===================================================================== *)

Section Properties.
Context `{PyLib} {E : Type} `{Collaborators E}.

(** C1. Loop durability. When the collaborators fail with errors (a
    backend or oracle failure is an [Exception]), every error raised in
    the [try] block of an iteration is caught by the [except] clause,
    logged, and followed by the sleep of 60 seconds; after any number [n]
    of iterations, failing or not, the loop has not ended and has slept
    [n] times for 60 seconds. *)
Theorem loop_durability :
  errors_only E ->
  forall (n : nat) (w : World E),
    (forall e w1, loop_body w = (Raise e, w1) ->
       ai_loop_iter w
       = (Ok tt, tell [ELog ERROR ("Error in AI loop: " +:+ exn_str e); ESleep 60] w1)) /\
    fst (ai_loop n w) = Ok tt /\
    sleeps_of (snd (ai_loop n w)) = sleeps_of w ++ repeat 60%Z n.
Proof.
  intros Herr n w. split.
  { intros e w1 Hb. apply ai_loop_iter_catches; [done|].
    by eapply (raises_loop_body Herr). }
  revert w. induction n as [|n IH]; intros w; simpl.
  { split; [done|]. by rewrite app_nil_r. }
  unfold bind. pose proof (ai_loop_iter_returns Herr w) as Hok.
  pose proof (ai_loop_iter_sleeps w Hok) as Hs.
  destruct (ai_loop_iter w) as [[[]|e] w1]; simpl in *; [|done].
  destruct (IH w1) as [Hn Hsn]. split; [done|].
  by rewrite Hsn, Hs, <- app_assoc.
Qed.

(** C2, as the code has it. Let the oracle's response not decode as
    JSON. Then no memory entry is appended (the memory is left as it
    was), and the collaborator calls of the cycle are the four listings
    of the snapshot and the oracle call. When [json.loads] raises
    [JSONDecodeError], [think] returns the fallback decision, whose
    action is ["none"] and whose thought_process is a non-empty error
    text, and logs the raw response; no exception escapes, and the
    iteration of the loop only logs the decision and sleeps. When
    [json.loads] raises another exception (a [ValueError] for an integer
    over the digit limit, a [RecursionError] for nesting beyond the
    recursion limit), the clause [except json.JSONDecodeError] does not
    catch it: it escapes [think], and the background loop catches it at
    the cycle boundary, logs it and sleeps. *)
Theorem malformed_response_falls_back (w w1 : World E) (response : string) :
  ask_oracle w = (Ok response, w1) ->
  (forall d, json_loads response <> Loaded d) ->
  memory (snd (think w)) = memory w /\
  (exists prompt,
     trace w1 = trace w ++ [ECall ContainersList; ECall ImagesList; ECall NetworksList;
                            ECall VolumesList; ECall (Ainvoke prompt)]) /\
  py_getitem fallback_decision "action" = Ok (JStr "none") /\
  py_getitem fallback_decision "thought_process" = Ok (JStr "Error in decision making") /\
  py_getitem fallback_decision "parameters" = Ok (JObj []) /\
  (forall msg,
     json_loads response = NotJSON msg ->
     think w
     = (Ok fallback_decision,
        tell [ELog ERROR ("Invalid JSON response from AI: " +:+ response)] w1) /\
     ai_loop_iter w
     = (Ok tt,
        tell [ELog ERROR ("Invalid JSON response from AI: " +:+ response);
              ELog INFO ("AI Decision: " +:+ json_dumps (Some 2) fallback_decision);
              ESleep 60] w1)) /\
  (forall err,
     json_loads response = LoadsFailed err ->
     think w = (Raise (loads_exn err), w1) /\
     ai_loop_iter w
     = (Ok tt,
        tell [ELog ERROR ("Error in AI loop: " +:+ exn_str (loads_exn err)); ESleep 60] w1)).
Proof.
  intros Hask Hload.
  assert (Hthink : think w = record_decision response w1).
  { unfold think, bind. by rewrite Hask. }
  pose proof (record_decision_memory response w1) as Hr.
  pose proof (memory_ask_oracle w) as Hm. rewrite Hask in Hm; simpl in Hm.
  split.
  { rewrite Hthink. destruct (json_loads response) as [d|msg|err].
    - by destruct (Hload d).
    - by rewrite Hr.
    - by rewrite Hr. }
  split.
  { destruct (ask_oracle_calls w w1 response Hask) as (st & gs & Htr). by eexists. }
  do 3 (split; [done|]). split.
  - intros msg Hmsg. rewrite Hmsg in Hr. rewrite <- Hthink in Hr. split; [exact Hr|].
    apply ai_loop_iter_of_body.
    erewrite loop_body_none; [|exact Hr|reflexivity|reflexivity].
    by rewrite tell_tell.
  - intros err Herr. rewrite Herr in Hr. rewrite <- Hthink in Hr. split; [exact Hr|].
    apply ai_loop_iter_catches; [|by destruct err].
    unfold loop_body, bind. by rewrite Hr.
Qed.

(** C3, as the code has it. In an iteration whose decision has an action
    other than ["none"] and whose dispatch returns a result, the result
    is written to the log after the decision and is not stored: the
    memory after the iteration is the memory before it followed by the
    one entry that holds the timestamp and the decision. A dispatched
    delete_container on a name [n] that the backend finds and removes
    makes one call to get and one to remove, and its result is the
    message ["Container deleted: n"]. *)
Theorem dispatch_result_is_logged (w w1 w2 : World E) (d a p r : json) :
  think w = (Ok d, w1) ->
  py_getitem d "action" = Ok a ->
  py_ne_str a "none" = true ->
  py_getitem d "parameters" = Ok p ->
  execute_action a p (tell [ELog INFO ("AI Decision: " +:+ json_dumps (Some 2) d)] w1)
  = (Ok r, w2) ->
  ai_loop_iter w
  = (Ok tt, tell [ELog INFO ("Action Result: " +:+ json_dumps (Some 2) r); ESleep 60] w2) /\
  (exists ts, memory (snd (ai_loop_iter w)) = memory w ++ [memory_entry ts d]) /\
  (forall (n : string) (c : Container) (e1 e2 : E) (w' : World E),
     perform (ContainersGet (JStr n)) (env w') = (Ok c, e1) ->
     perform (Remove c) e1 = (Ok tt, e2) ->
     execute_action (JStr "delete_container") (JObj [("name", JStr n)]) w'
     = (Ok (JObj [("message", JStr ("Container deleted: " +:+ n))]),
        mkWorld (memory w') (goals w') e2
          (trace w' ++ [ECall (ContainersGet (JStr n)); ECall (Remove c)]))).
Proof.
  intros Ht Ha Hn Hp Hx.
  assert (Hiter : ai_loop_iter w
                  = (Ok tt, tell [ELog INFO ("Action Result: " +:+ json_dumps (Some 2) r);
                                  ESleep 60] w2)).
  { apply ai_loop_iter_of_body. rewrite (loop_body_dispatch w w1 d a p Ht Ha Hn Hp).
    by rewrite Hx. }
  split; [done|]. split.
  - rewrite Hiter; simpl.
    pose proof (memory_execute_action a p
                  (tell [ELog INFO ("AI Decision: " +:+ json_dumps (Some 2) d)] w1)) as Hm.
    rewrite Hx in Hm; simpl in Hm. rewrite Hm.
    destruct (think_returns w w1 d Ht) as [[ts Hts]|[-> _]]; [by exists ts|].
    simpl in Ha. by simplify_eq.
  - intros n c e1 e2 w' Hget Hrm.
    rewrite (execute_action_in_table _ _ _ _ delete_container_in_table).
    rewrite call_and_await_delete.
    unfold delete_container, bind, call, ret; simpl. rewrite Hget; simpl. rewrite Hrm; simpl.
    by rewrite <- app_assoc.
Qed.

(** C4, as the code has it. For every action of the dispatch table and
    every parameter mapping that leaves out one of the handler's required
    parameters, [execute_action] raises a [TypeError] while binding the
    arguments and returns no result; the handler's body does not run and
    the world is left as it was. In the background loop the error is
    caught by the [except] clause of the iteration, logged, and followed
    by the sleep. *)
Theorem missing_parameter_raises (a k : string) (h : handler) (kw : dict) :
  action_dispatch !! a = Some h ->
  In k (required (handler_sig h)) ->
  dict_get k kw = None ->
  exists msg,
    (forall w : World E,
       execute_action (JStr a) (JObj kw) w = (Raise (TypeError msg), w)) /\
    (forall (w w1 : World E) (d : json),
       think w = (Ok d, w1) ->
       py_getitem d "action" = Ok (JStr a) ->
       py_getitem d "parameters" = Ok (JObj kw) ->
       ai_loop_iter w
       = (Ok tt,
          tell [ELog INFO ("AI Decision: " +:+ json_dumps (Some 2) d);
                ELog ERROR ("Error in AI loop: " +:+ msg);
                ESleep 60] w1)).
Proof.
  intros Ha Hk Hnone.
  destruct (bind_arguments_missing (handler_sig h) kw k Hk Hnone) as [msg Hb].
  exists msg.
  assert (Hx : forall w : World E,
             execute_action (JStr a) (JObj kw) w = (Raise (TypeError msg), w)).
  { intros w. rewrite (execute_action_in_table _ _ _ _ Ha).
    unfold call_and_await, bind, lift; simpl. by rewrite Hb. }
  split; [done|].
  intros w w1 d Ht Hact Hpar.
  assert (Hbody : loop_body w
                  = (Raise (TypeError msg),
                     tell [ELog INFO ("AI Decision: " +:+ json_dumps (Some 2) d)] w1)).
  { rewrite (loop_body_dispatch w w1 d _ _ Ht Hact (in_table_not_none a h Ha) Hpar).
    by rewrite Hx. }
  rewrite (ai_loop_iter_catches w _ _ Hbody eq_refl). by rewrite tell_tell.
Qed.

(** C5. For every action string that is not a key of the dispatch table
    and every parameters value, [execute_action] returns the result
    [{"error": "Unknown action: <action>"}], raises nothing, and leaves
    the world as it was. *)
Theorem unknown_action_is_reported (a : string) (parameters : json) (w : World E) :
  action_dispatch !! a = None ->
  execute_action (JStr a) parameters w
  = (Ok (JObj [("error", JStr ("Unknown action: " +:+ a))]), w).
Proof.
  intros Ha. unfold execute_action, bind.
  assert (Hget : dispatch_get (JStr a) = Ok None) by (simpl; by rewrite Ha).
  unfold lift. by rewrite Hget.
Qed.

(** C6. The part of the memory that goes into the oracle's prompt,
    [self.memory[-10:]], has at most 10 entries and at most as many as
    the memory holds (the smaller of the two, without padding), and is a
    suffix of the memory, in append order; a non-empty memory is rendered
    through it, and the rendering is what the prompt sent to the oracle
    carries. *)
Theorem recent_memory_is_a_bounded_suffix (mem : list json) :
  length (recent_memory mem) <= 10 /\
  length (recent_memory mem) <= length mem /\
  length (recent_memory mem) = Nat.min 10 (length mem) /\
  recent_memory mem `suffix_of` mem /\
  recent_memory mem = drop (length mem - 10) mem /\
  (forall x rest,
     memory_str (x :: rest) = json_dumps None (JArr (recent_memory (x :: rest)))) /\
  (forall (w w1 : World E) (response : string),
     memory w = mem ->
     ask_oracle w = (Ok response, w1) ->
     exists system_state goals_s,
       last (trace w1)
       = Some (ECall (Ainvoke (build_prompt system_state (memory_str mem) goals_s)))).
Proof.
  unfold recent_memory. rewrite py_slice_from_drop.
  rewrite length_drop.
  split; [lia|]. split; [lia|]. split; [lia|].
  split; [apply suffix_drop|]. split; [done|]. split; [done|].
  intros w w1 response <- Hask.
  destruct (ask_oracle_calls w w1 response Hask) as (st & gs & Htr).
  exists st, gs. rewrite Htr.
  change [ECall ContainersList; ECall ImagesList; ECall NetworksList; ECall VolumesList;
          ECall (Ainvoke (build_prompt st (memory_str (memory w)) gs))]
    with ([ECall ContainersList; ECall ImagesList; ECall NetworksList; ECall VolumesList]
          ++ [ECall (Ainvoke (build_prompt st (memory_str (memory w)) gs))]).
  rewrite app_assoc. apply last_snoc.
Qed.

(** C7, evaluated on the code. The method [set_goal] appends the goal
    and returns the message, but it is a plain [def]: dispatched through
    [execute_action], the goal is appended and then [await] is applied
    to the returned dict, which raises a [TypeError]; the dispatch
    returns no result. *)
Theorem set_goal_dispatch_raises (g : json) (w : World E) :
  set_goal g w
  = (Ok (JObj [("message", JStr ("New goal set: " +:+ py_str g))]),
     mkWorld (memory w) (goals w ++ [g]) (env w) (trace w)) /\
  execute_action (JStr "set_goal") (JObj [("goal", g)]) w
  = (Raise (TypeError "object dict can't be used in 'await' expression"),
     mkWorld (memory w) (goals w ++ [g]) (env w) (trace w)).
Proof.
  split; [done|].
  rewrite (execute_action_in_table _ _ _ _ set_goal_in_table).
  reflexivity.
Qed.

(** C8. ["none"] is not a key of the dispatch table: dispatching it runs
    no handler, returns the unknown-action result and leaves the backend,
    the memory and the goals (the whole world) as they were; and an
    iteration of the background loop whose decision has action ["none"]
    does not call the dispatcher: after [think] it logs the decision and
    sleeps. *)
Theorem none_is_never_dispatched (w w1 : World E) (d : json) :
  think w = (Ok d, w1) ->
  py_getitem d "action" = Ok (JStr "none") ->
  action_dispatch !! "none" = None /\
  dispatch_get (JStr "none") = Ok None /\
  (forall (p : json) (w' : World E),
     execute_action (JStr "none") p w'
     = (Ok (JObj [("error", JStr "Unknown action: none")]), w')) /\
  ai_loop_iter w
  = (Ok tt, tell [ELog INFO ("AI Decision: " +:+ json_dumps (Some 2) d); ESleep 60] w1).
Proof.
  intros Ht Ha. split; [apply none_not_in_table|].
  split; [unfold dispatch_get; by rewrite none_not_in_table|].
  split.
  - intros p w'. apply (execute_action_not_in_table "none" p w' none_not_in_table).
  - apply ai_loop_iter_of_body. by eapply loop_body_none.
Qed.

(** C9. The memory is append-only. [think] leaves it as it was or
    appends one entry at its end; [execute_action], every handler, and
    the state, goals and memory endpoints leave it as it was; the
    interact endpoint, an iteration of the loop and any number of
    iterations keep the memory they start from as a prefix of the memory
    they end with. *)
Theorem memory_is_append_only :
  (forall w : World E,
     memory (snd (think w)) = memory w \/
     exists entry, memory (snd (think w)) = memory w ++ [entry]) /\
  (forall a p (w : World E), memory (snd (execute_action a p w)) = memory w) /\
  (forall h b (w : World E), memory (snd (handler_body h b w)) = memory w) /\
  (forall w : World E, memory (snd (get_system_state_endpoint w)) = memory w) /\
  (forall w : World E, memory (snd (get_ai_goals w)) = memory w) /\
  (forall w : World E, memory (snd (get_ai_memory w)) = memory w) /\
  (forall u (w : World E), memory w `prefix_of` memory (snd (interact_with_ai u w))) /\
  (forall w : World E, memory w `prefix_of` memory (snd (ai_loop_iter w))) /\
  (forall n (w : World E), memory w `prefix_of` memory (snd (ai_loop n w))).
Proof.
  split; [|split; [|split; [|split; [|split; [|split; [|split; [|split]]]]]]].
  - intros w. destruct (think_memory w) as [Hm|(ts & d & _ & Hm)]; [by left|].
    right. by eexists.
  - intros a p. apply memory_execute_action.
  - intros h b. apply memory_handler_body.
  - apply memory_get_system_state.
  - done.
  - done.
  - intros u. apply extends_interact.
  - apply extends_ai_loop_iter.
  - intros n. apply extends_ai_loop.
Qed.

(** C10, as the code has it. The interact endpoint dispatches the
    decision without filtering ["none"]: whenever [think] returns a
    decision with action ["none"] that also has the keys parameters,
    thought_process and explanation (as the fallback decision has), the
    response carries the action_result
    [{"error": "Unknown action: none"}], and the dispatch changes
    nothing. *)
Theorem interact_dispatches_none (u : string) (w w1 : World E) (d p tp ex : json) :
  think w = (Ok d, w1) ->
  py_getitem d "action" = Ok (JStr "none") ->
  py_getitem d "parameters" = Ok p ->
  py_getitem d "thought_process" = Ok tp ->
  py_getitem d "explanation" = Ok ex ->
  interact_with_ai u w
  = (Ok (JObj [("ai_thought_process", tp);
               ("ai_action", JStr "none");
               ("ai_explanation", ex);
               ("action_result", JObj [("error", JStr "Unknown action: none")])]),
     w1).
Proof.
  intros Ht Ha Hp Htp Hex. unfold interact_with_ai, bind, lift.
  rewrite Ht, Ha, Hp.
  rewrite (execute_action_not_in_table "none" p w1 none_not_in_table).
  by rewrite Htp, Hex.
Qed.

End Properties.

(* ===================================================================== *)
(** ** Further properties of the code *)
(* ===================================================================== *)

Lemma py_str_prefix_length n s :
  String.length (py_str_prefix n s) = Nat.min n (String.length s).
Proof.
  unfold py_str_prefix. revert n.
  induction s as [|c s IH]; intros [|n]; simpl; try done. by rewrite IH.
Qed.

Lemma py_str_prefix_app n s : exists rest, s = py_str_prefix n s +:+ rest.
Proof.
  unfold py_str_prefix. revert n.
  induction s as [|c s IH]; intros [|n]; simpl; try (by eexists).
  destruct (IH n) as [rest Hrest]. exists rest.
  change (String c s = String c (substring 0 n s +:+ rest)). by f_equal.
Qed.

Lemma oracle_calls_app t1 t2 :
  oracle_calls (t1 ++ t2) = oracle_calls t1 + oracle_calls t2.
Proof. unfold oracle_calls. by rewrite List.filter_app, length_app. Qed.

Lemma oracle_calls_tell {E} evs (w : World E) :
  oracle_calls (trace (tell evs w)) = oracle_calls (trace w) + oracle_calls evs.
Proof. unfold tell; simpl. apply oracle_calls_app. Qed.

Section Snapshot.
Context `{PyLib} {E : Type} `{Collaborators E}.

(** The snapshot calls the four listings and nothing else. *)
Lemma get_system_state_trace (w : World E) :
  exists evs,
    trace (snd (get_system_state w)) = trace w ++ evs /\
    oracle_calls evs = 0 /\
    memory (snd (get_system_state w)) = memory w /\
    goals (snd (get_system_state w)) = goals w.
Proof.
  unfold get_system_state, bind, call, ret; simpl.
  destruct (perform ContainersList (env w)) as [[cs|?] e1]; simpl;
    [|by exists [ECall ContainersList]].
  destruct (perform ImagesList e1) as [[imgs|?] e2]; simpl;
    [|exists [ECall ContainersList; ECall ImagesList]; by rewrite <- !app_assoc].
  destruct (perform NetworksList e2) as [[nets|?] e3]; simpl;
    [|exists [ECall ContainersList; ECall ImagesList; ECall NetworksList];
      by rewrite <- !app_assoc].
  destruct (perform VolumesList e3) as [[vols|?] e4]; simpl;
    exists [ECall ContainersList; ECall ImagesList; ECall NetworksList; ECall VolumesList];
    by rewrite <- !app_assoc.
Qed.

(** X1. A snapshot that succeeds has made the four listing calls, in
    order, and leaves memory and goals as they were; it holds one record
    per container of the backend, in the backend's order, each with the
    container's name, status and image tags and with an id that is the
    first 12 characters of the container's id (the whole id when it is
    shorter). *)
Theorem snapshot_lists_every_container (w : World E)
    (cs : list Container) (imgs : list (list string)) (nets vols : list string)
    (e1 e2 e3 e4 : E) :
  perform ContainersList (env w) = (Ok cs, e1) ->
  perform ImagesList e1 = (Ok imgs, e2) ->
  perform NetworksList e2 = (Ok nets, e3) ->
  perform VolumesList e3 = (Ok vols, e4) ->
  exists entries,
    get_system_state w
    = (Ok (JObj [("containers", JArr entries);
                 ("images", JArr (map (fun tags => JArr (map JStr tags)) imgs));
                 ("networks", JArr (map JStr nets));
                 ("volumes", JArr (map JStr vols))]),
       mkWorld (memory w) (goals w) e4
         (trace w ++ [ECall ContainersList; ECall ImagesList;
                      ECall NetworksList; ECall VolumesList])) /\
    length entries = length cs /\
    forall (i : nat) (c : Container),
      cs !! i = Some c ->
      exists short rest,
        entries !! i = Some (JObj [("id", JStr short);
                                   ("name", JStr (c_name c));
                                   ("status", JStr (c_status c));
                                   ("image", JArr (map JStr (c_image_tags c)))]) /\
        c_id c = short +:+ rest /\
        String.length short = Nat.min 12 (String.length (c_id c)).
Proof.
  intros H1 H2 H3 H4. exists (map container_state cs). split; [|split].
  - unfold get_system_state, bind, call, ret; simpl.
    rewrite H1; simpl. rewrite H2; simpl. rewrite H3; simpl. rewrite H4; simpl.
    by rewrite <- !app_assoc.
  - by rewrite length_map.
  - intros i c Hi. destruct (py_str_prefix_app 12 (c_id c)) as [rest Hrest].
    exists (py_str_prefix 12 (c_id c)), rest. split; [|split].
    + by rewrite list_lookup_fmap, Hi.
    + exact Hrest.
    + apply py_str_prefix_length.
Qed.

(** X2. When the snapshot fails, [think] fails with the same exception
    and in the same world: the oracle is not called, and memory and
    goals are as they were. In the background loop the failure is logged
    and followed by the sleep. *)
Theorem snapshot_failure_skips_the_oracle (w w1 : World E) (e : exn) :
  get_system_state w = (Raise e, w1) ->
  think w = (Raise e, w1) /\
  memory w1 = memory w /\
  goals w1 = goals w /\
  oracle_calls (trace w1) = oracle_calls (trace w) /\
  (is_Exception e = true ->
   ai_loop_iter w
   = (Ok tt, tell [ELog ERROR ("Error in AI loop: " +:+ exn_str e); ESleep 60] w1)).
Proof.
  intros Hs.
  assert (Ht : think w = (Raise e, w1)).
  { unfold think, ask_oracle, bind. by rewrite Hs. }
  destruct (get_system_state_trace w) as (evs & Htr & Hev & Hm & Hg).
  rewrite Hs in Htr, Hm, Hg; simpl in *.
  split; [done|]. split; [done|]. split; [done|]. split.
  - rewrite Htr, oracle_calls_app, Hev. lia.
  - intros He. apply ai_loop_iter_catches; [|done].
    unfold loop_body, bind. by rewrite Ht.
Qed.

End Snapshot.

Section Thinking.
Context `{PyLib} {E : Type} `{Collaborators E}.

Lemma goals_log lvl msg : preserves goals (@log E lvl msg).
Proof. done. Qed.

Lemma goals_sleep secs : preserves goals (@sleep E secs).
Proof. done. Qed.

Lemma goals_call {A} (c : extcall A) : preserves goals (call c).
Proof. intros w. unfold call. by destruct (perform c (env w)). Qed.

Lemma goals_now : preserves goals now_isoformat.
Proof. intros w. unfold now_isoformat. by destruct (clock_now (env w)). Qed.

Lemma goals_memory_append x : preserves goals (@memory_append E x).
Proof. done. Qed.

Lemma goals_ask_oracle : preserves goals ask_oracle.
Proof. apply frame_ask_oracle. intros A c. apply goals_call. Qed.

Lemma goals_think : preserves goals think.
Proof.
  apply frame_think; auto using @goals_call, goals_log, goals_now, goals_memory_append.
Qed.

(** X3. A call of [think] that raises, whatever the reason (the snapshot,
    the rendering of the goals or the oracle failed), has changed
    neither the memory nor the goals. *)
Theorem failed_think_changes_nothing (w : World E) (e : exn) :
  fst (think w) = Raise e ->
  memory (snd (think w)) = memory w /\ goals (snd (think w)) = goals w.
Proof.
  intros He. split; [|apply goals_think].
  destruct (think_memory w) as [Hm|(ts & d & Hd & _)]; [done|].
  rewrite Hd in He. discriminate He.
Qed.

(** X4. [think] does not validate what it decodes: whenever the oracle's
    response decodes as JSON, to any value [d], [think] returns [d] as
    it is and appends the entry with the clock's timestamp and [d] to the
    memory, leaving the goals and the trace as they were after the oracle
    call; the memory endpoint then shows that entry last. *)
Theorem decoded_decision_is_stored (w w1 : World E) (response : string) (d : json) :
  ask_oracle w = (Ok response, w1) ->
  json_loads response = Loaded d ->
  exists ts e',
    clock_now (env w1) = (ts, e') /\
    think w
    = (Ok d, mkWorld (memory w ++ [memory_entry ts d]) (goals w) e' (trace w1)) /\
    fst (get_ai_memory (snd (think w)))
    = Ok (JObj [("memory", JArr (memory w ++ [memory_entry ts d]))]).
Proof.
  intros Hask Hload.
  pose proof (memory_ask_oracle w) as Hm. pose proof (goals_ask_oracle w) as Hg.
  rewrite Hask in Hm, Hg; simpl in Hm, Hg.
  destruct (clock_now (env w1)) as [ts e'] eqn:Hc. exists ts, e'.
  split; [done|].
  assert (Ht : think w
               = (Ok d, mkWorld (memory w ++ [memory_entry ts d]) (goals w) e' (trace w1))).
  { unfold think, bind. rewrite Hask.
    unfold record_decision, try_except, bind, lift, py_json_loads. rewrite Hload.
    unfold now_isoformat. rewrite Hc. unfold memory_append, ret; simpl.
    by rewrite Hm, Hg. }
  split; [done|]. by rewrite Ht.
Qed.

(** X5. A decision the loop cannot read: when [decision['action']]
    raises (the decoded value is no object, or has no such key), or when
    the action is to be dispatched and [decision['parameters']] raises,
    the iteration logs the decision, logs the error and sleeps; the
    dispatcher is not called, so nothing else changes after [think]. The
    interact endpoint lets the same exception out. *)
Theorem unreadable_decision_is_not_dispatched (u : string) (w w1 : World E) (d : json) (e : exn) :
  think w = (Ok d, w1) ->
  py_getitem d "action" = Raise e \/
  (exists a, py_getitem d "action" = Ok a /\ py_ne_str a "none" = true /\
             py_getitem d "parameters" = Raise e) ->
  ai_loop_iter w
  = (Ok tt,
     tell [ELog INFO ("AI Decision: " +:+ json_dumps (Some 2) d);
           ELog ERROR ("Error in AI loop: " +:+ exn_str e);
           ESleep 60] w1) /\
  interact_with_ai u w = (Raise e, w1).
Proof.
  intros Ht Hcase.
  assert (Hbody : loop_body w
                  = (Raise e, tell [ELog INFO ("AI Decision: " +:+ json_dumps (Some 2) d)] w1)).
  { unfold loop_body, bind. rewrite Ht. unfold log at 1. unfold emit at 1. unfold lift.
    destruct Hcase as [Ha|(a & Ha & Hn & Hp)].
    - by rewrite Ha.
    - by rewrite Ha, Hn, Hp. }
  assert (He : is_Exception e = true).
  { destruct Hcase as [Ha|(a & _ & _ & Hp)]; by eapply res_getitem. }
  split.
  - rewrite (ai_loop_iter_catches w e _ Hbody He). by rewrite tell_tell.
  - unfold interact_with_ai, bind, lift. rewrite Ht.
    destruct Hcase as [Ha|(a & Ha & _ & Hp)]; [by rewrite Ha | by rewrite Ha, Hp].
Qed.

End Thinking.

Section Goals.
Context `{PyLib} {E : Type} `{Collaborators E}.

Lemma goals_handler_body h b (w : World E) :
  h <> h_set_goal -> goals (snd (handler_body h b w)) = goals w.
Proof.
  intros Hh. revert w. change (preserves goals (handler_body h b)).
  pose proof (@goals_call E _) as Hcall.
  destruct h; try done; simpl;
    unfold create_container, delete_container, modify_container,
      list_containers, get_container_logs, execute_in_container, decode; frame.
Qed.

Lemma goals_set_goal g (w : World E) : goals (snd (set_goal g w)) = goals w ++ [g].
Proof. done. Qed.

Lemma goals_execute_action a p (w : World E) :
  goals (snd (execute_action a p w)) = goals w \/
  exists g, goals (snd (execute_action a p w)) = goals w ++ [g].
Proof.
  unfold execute_action, bind, lift.
  destruct (dispatch_get a) as [[h|]|e]; simpl; [|by left..].
  unfold call_and_await, bind, lift.
  destruct (unpack_mapping (handler_sig h) p) as [kw|e]; simpl; [|by left].
  destruct (bind_arguments (handler_sig h) kw) as [b|e]; simpl; [|by left].
  assert (Hcase : h = h_set_goal \/ h <> h_set_goal) by (destruct h; (by left) || (by right)).
  destruct Hcase as [->|Hh].
  - right. by exists (arg b "goal").
  - left. pose proof (goals_handler_body h b w Hh) as Hb.
    destruct (is_async (handler_sig h)); [done|].
    unfold bind. by destruct (handler_body h b w) as [[r|e] w'].
Qed.

Lemma extends_goals_of_preserves {A} (m : M E A) : preserves goals m -> extends_goals m.
Proof. intros Hm w. by rewrite Hm. Qed.

Lemma extends_goals_bind {A B} (m : M E A) (k : A -> M E B) :
  extends_goals m -> (forall a, extends_goals (k a)) -> extends_goals (bind m k).
Proof.
  intros Hm Hk w. unfold bind. specialize (Hm w).
  destruct (m w) as [[a|e] w1]; simpl in *; [|done].
  etrans; [exact Hm | apply Hk].
Qed.

Lemma extends_goals_try_except {A} (m : M E A) catches (h : exn -> M E A) :
  extends_goals m -> (forall e, extends_goals (h e)) -> extends_goals (try_except m catches h).
Proof.
  intros Hm Hh w. unfold try_except. specialize (Hm w).
  destruct (m w) as [[a|e] w1]; simpl in *; [done|].
  destruct (catches e); [|done]. etrans; [exact Hm | apply Hh].
Qed.

Lemma extends_goals_execute_action a p : extends_goals (execute_action a p).
Proof.
  intros w. destruct (goals_execute_action a p w) as [->|[g ->]]; [done|].
  by apply prefix_app_r.
Qed.

Hint Resolve goals_log goals_sleep : frame.

Lemma extends_goals_loop_body : extends_goals loop_body.
Proof.
  unfold loop_body.
  apply extends_goals_bind; [apply extends_goals_of_preserves, goals_think | intros d].
  apply extends_goals_bind; [apply extends_goals_of_preserves; frame | intros _].
  apply extends_goals_bind; [apply extends_goals_of_preserves; frame | intros a].
  apply extends_goals_bind; [| intros _; apply extends_goals_of_preserves; frame].
  destruct (py_ne_str a "none"); [|apply extends_goals_of_preserves; frame].
  apply extends_goals_bind; [apply extends_goals_of_preserves; frame | intros a'].
  apply extends_goals_bind; [apply extends_goals_of_preserves; frame | intros p].
  apply extends_goals_bind; [apply extends_goals_execute_action | intros r].
  apply extends_goals_of_preserves; frame.
Qed.

Lemma extends_goals_ai_loop_iter : extends_goals ai_loop_iter.
Proof.
  unfold ai_loop_iter. apply extends_goals_try_except; [apply extends_goals_loop_body|].
  intros e. apply extends_goals_of_preserves. frame.
Qed.

Lemma extends_goals_ai_loop n : extends_goals (ai_loop n).
Proof.
  induction n as [|n IH]; simpl.
  - by apply extends_goals_of_preserves.
  - apply extends_goals_bind; [apply extends_goals_ai_loop_iter | done].
Qed.

Lemma extends_goals_interact u : extends_goals (interact_with_ai u).
Proof.
  unfold interact_with_ai.
  apply extends_goals_bind; [apply extends_goals_of_preserves, goals_think | intros d].
  apply extends_goals_bind; [apply extends_goals_of_preserves; frame | intros a].
  apply extends_goals_bind; [apply extends_goals_of_preserves; frame | intros p].
  apply extends_goals_bind; [apply extends_goals_execute_action | intros r].
  apply extends_goals_of_preserves; frame.
Qed.

(** X6. The goal list is append-only, and only [set_goal] writes it.
    [think], the snapshot and every handler other than [set_goal] leave
    it as it was; [set_goal] appends its argument at the end; a dispatch
    leaves it as it was or appends one goal; the interact endpoint and
    any number of iterations of the loop keep the goals they start from
    as a prefix of the goals they end with. No operation removes or
    reorders a goal. *)
Theorem goals_are_append_only :
  (forall w : World E, goals (snd (think w)) = goals w) /\
  (forall w : World E, goals (snd (get_system_state w)) = goals w) /\
  (forall h b (w : World E), h <> h_set_goal -> goals (snd (handler_body h b w)) = goals w) /\
  (forall g (w : World E), goals (snd (set_goal g w)) = goals w ++ [g]) /\
  (forall a p (w : World E),
     goals (snd (execute_action a p w)) = goals w \/
     exists g, goals (snd (execute_action a p w)) = goals w ++ [g]) /\
  (forall u (w : World E), goals w `prefix_of` goals (snd (interact_with_ai u w))) /\
  (forall n (w : World E), goals w `prefix_of` goals (snd (ai_loop n w))).
Proof.
  split; [apply goals_think|].
  split; [apply frame_get_system_state; intros A c; apply goals_call|].
  split; [apply goals_handler_body|].
  split; [done|].
  split; [apply goals_execute_action|].
  split; [apply extends_goals_interact | apply extends_goals_ai_loop].
Qed.

End Goals.

(* --------------------------------------------------------------------- *)
(** *** Binding the parameters of a dispatch *)

Lemma eqb_self_sym k : String.eqb k "self" = String.eqb "self" k.
Proof. apply String.eqb_sym. Qed.

(** A handler with [**kwargs] accepts every keyword but [self]. *)
Lemma check_keywords_var_keyword sg kw :
  var_keyword sg = true -> dict_has "self" kw = false -> check_keywords sg kw = None.
Proof.
  intros Hv. unfold dict_has.
  induction kw as [|[k v] rest IH]; cbn [check_keywords dict_get]; [done|].
  rewrite eqb_self_sym. destruct (String.eqb "self" k); [done|].
  intros Hrest. rewrite Hv, orb_true_r. by apply IH.
Qed.

(** A handler without [**kwargs] rejects a keyword that names no
    parameter. *)
Lemma check_keywords_unexpected sg kw k v :
  var_keyword sg = false -> In (k, v) kw -> is_param sg k = false ->
  exists msg, check_keywords sg kw = Some (TypeError msg).
Proof.
  intros Hv Hin Hk.
  induction kw as [|[k' v'] rest IH]; cbn [check_keywords]; [destruct Hin|].
  destruct (String.eqb k' "self"); [by eexists|].
  destruct Hin as [Heq|Hin].
  - simplify_eq. rewrite Hk, Hv. cbn [orb]. by eexists.
  - destruct (is_param sg k' || var_keyword sg); [by apply IH | by eexists].
Qed.

(** What [**kwargs] collects keeps every keyword that names no
    parameter. *)
Lemma dict_get_extra_keywords sg kw k :
  is_param sg k = false -> dict_get k (extra_keywords sg kw) = dict_get k kw.
Proof.
  intros Hk. unfold extra_keywords.
  induction kw as [|[k' v'] rest IH]; cbn [List.filter dict_get fst]; [done|].
  destruct (String.eqb_spec k k') as [<-|Hne].
  - rewrite Hk. cbn [negb dict_get]. by rewrite String.eqb_refl.
  - destruct (is_param sg k'); cbn [negb dict_get]; [done|].
    destruct (String.eqb_spec k k'); [done|]. exact IH.
Qed.

Section Handlers.
Context `{PyLib} {E : Type} `{Collaborators E}.

(** The binding of a call that gives every required parameter and only
    keywords the handler takes. *)
Lemma bind_arguments_ok sg kw :
  check_keywords sg kw = None ->
  (forall k, In k (required sg) -> dict_has k kw = true) ->
  bind_arguments sg kw = Ok (mkBound (fill_params sg kw) (extra_keywords sg kw)).
Proof.
  intros Hc Hreq. unfold bind_arguments. rewrite Hc.
  assert (Hnone : List.filter (fun k => negb (dict_has k kw)) (required sg) = []).
  { induction (required sg) as [|k ks IH]; simpl; [done|].
    rewrite (Hreq k) by (by left); simpl. apply IH. intros k' Hk'. apply Hreq. by right. }
  by rewrite Hnone.
Qed.

Lemma dict_has_of_get k kw v : dict_get k kw = Some v -> dict_has k kw = true.
Proof. intros Hk. unfold dict_has. by rewrite Hk. Qed.

(** Awaiting [create_container] on a mapping with a name and an image
    runs its body on them and on the rest of the mapping. *)
Lemma call_and_await_create (kw : dict) (name image : json) (w : World E) :
  dict_get "name" kw = Some name ->
  dict_get "image" kw = Some image ->
  dict_has "self" kw = false ->
  call_and_await h_create_container (JObj kw) w
  = create_container name image (extra_keywords (handler_sig h_create_container) kw) w.
Proof.
  intros Hn Hi Hself. unfold call_and_await, bind, lift.
  simpl unpack_mapping. cbv iota beta.
  rewrite bind_arguments_ok.
  - unfold handler_body, arg, fill_params; simpl. by rewrite Hn, Hi.
  - by apply check_keywords_var_keyword.
  - intros k [<-|[<-|[]]]; by eapply dict_has_of_get.
Qed.

Lemma detach_in_extra_keywords (kw : dict) :
  dict_has "detach" (extra_keywords (handler_sig h_create_container) kw)
  = dict_has "detach" kw.
Proof. unfold dict_has. by rewrite dict_get_extra_keywords. Qed.

(** X7. [create_container] forwards what it is not itself given a name
    for: for a parameter mapping with a name and an image and no key
    [self] or [detach], the dispatch makes one call of containers.run
    with the image, the name and every other key of the mapping, in the
    mapping's order and unchanged, and reports the name and the first 12
    characters of the id of the container the backend returned. *)
Theorem create_container_forwards_keywords
    (kw : dict) (name image : json) (c : Container) (e' : E) (w : World E) :
  dict_get "name" kw = Some name ->
  dict_get "image" kw = Some image ->
  dict_has "self" kw = false ->
  dict_has "detach" kw = false ->
  perform (ContainersRun image name (extra_keywords (handler_sig h_create_container) kw))
    (env w) = (Ok c, e') ->
  execute_action (JStr "create_container") (JObj kw) w
  = (Ok (JObj [("message",
                JStr ("Container created: " +:+ c_name c +:+ " ("
                        +:+ py_str_prefix 12 (c_id c) +:+ ")"))]),
     mkWorld (memory w) (goals w) e'
       (trace w ++ [ECall (ContainersRun image name
                             (extra_keywords (handler_sig h_create_container) kw))])).
Proof.
  intros Hn Hi Hself Hdetach Hrun.
  assert (Ht : action_dispatch !! "create_container" = Some h_create_container)
    by (vm_compute; reflexivity).
  rewrite (execute_action_in_table _ _ _ _ Ht).
  rewrite (call_and_await_create kw name image w Hn Hi Hself).
  unfold create_container, bind. rewrite detach_in_extra_keywords, Hdetach.
  unfold call. by rewrite Hrun.
Qed.

(** X8. A parameter mapping for [create_container] that has the key
    [detach] cannot be forwarded, since the call already passes
    detach=True: the dispatch raises a [TypeError] and the backend is not
    called. *)
Theorem create_container_rejects_detach (kw : dict) (name image : json) (w : World E) :
  dict_get "name" kw = Some name ->
  dict_get "image" kw = Some image ->
  dict_has "self" kw = false ->
  dict_has "detach" kw = true ->
  exists msg,
    execute_action (JStr "create_container") (JObj kw) w = (Raise (TypeError msg), w).
Proof.
  intros Hn Hi Hself Hdetach.
  assert (Ht : action_dispatch !! "create_container" = Some h_create_container)
    by (vm_compute; reflexivity).
  rewrite (execute_action_in_table _ _ _ _ Ht).
  rewrite (call_and_await_create kw name image w Hn Hi Hself).
  unfold create_container, bind. rewrite detach_in_extra_keywords, Hdetach.
  by eexists.
Qed.

(** X9. A failure of the backend inside a handler is not turned into an
    error result: when the lookup of the container raises, each of
    [delete_container], [modify_container], [get_container_logs] and
    [execute_in_container] raises the same exception after that one
    call, the operation on the container (remove, update, logs,
    exec_run) is not attempted, and the dispatcher lets the exception
    out. *)
Theorem lookup_failure_stops_the_handler (name : json) (e : exn) (e1 : E) (w : World E) :
  perform (ContainersGet name) (env w) = (Raise e, e1) ->
  delete_container name w
  = (Raise e, mkWorld (memory w) (goals w) e1 (trace w ++ [ECall (ContainersGet name)])) /\
  (forall kwargs,
     modify_container name kwargs w
     = (Raise e, mkWorld (memory w) (goals w) e1 (trace w ++ [ECall (ContainersGet name)]))) /\
  (forall lines,
     get_container_logs name lines w
     = (Raise e, mkWorld (memory w) (goals w) e1 (trace w ++ [ECall (ContainersGet name)]))) /\
  (forall command,
     execute_in_container name command w
     = (Raise e, mkWorld (memory w) (goals w) e1 (trace w ++ [ECall (ContainersGet name)]))) /\
  execute_action (JStr "delete_container") (JObj [("name", name)]) w
  = (Raise e, mkWorld (memory w) (goals w) e1 (trace w ++ [ECall (ContainersGet name)])).
Proof.
  intros Hget.
  assert (Hd : delete_container name w
               = (Raise e, mkWorld (memory w) (goals w) e1
                             (trace w ++ [ECall (ContainersGet name)]))).
  { unfold delete_container, bind, call. by rewrite Hget. }
  split; [exact Hd|]. split; [|split; [|split]].
  - intros kwargs. unfold modify_container, bind, call. by rewrite Hget.
  - intros lines. unfold get_container_logs, bind, call. by rewrite Hget.
  - intros command. unfold execute_in_container, bind, call. by rewrite Hget.
  - rewrite (execute_action_in_table _ _ _ _ delete_container_in_table).
    by rewrite call_and_await_delete.
Qed.

(** X10. [get_container_logs] asks for the last 50 lines unless the
    mapping says otherwise: dispatched with a name and an optional
    [lines] value, it looks the container up, calls logs with tail set to
    that value, or to 50 when there is none, and returns the decoded text
    under the key [logs]. The value of [lines] is passed on as it is. *)
Theorem get_container_logs_tail (name : json) (lines : option json)
    (c : Container) (bytes text : string) (e1 e2 : E) (w : World E) :
  perform (ContainersGet name) (env w) = (Ok c, e1) ->
  perform (Logs c (default (JInt 50) lines)) e1 = (Ok bytes, e2) ->
  utf8_decode bytes = Some text ->
  execute_action (JStr "get_container_logs")
    (JObj (("name", name) :: match lines with Some l => [("lines", l)] | None => [] end)) w
  = (Ok (JObj [("logs", JStr text)]),
     mkWorld (memory w) (goals w) e2
       (trace w ++ [ECall (ContainersGet name); ECall (Logs c (default (JInt 50) lines))])).
Proof.
  intros Hget Hlogs Hdec.
  assert (Ht : action_dispatch !! "get_container_logs" = Some h_get_container_logs)
    by (vm_compute; reflexivity).
  rewrite (execute_action_in_table _ _ _ _ Ht).
  assert (Hc : call_and_await h_get_container_logs
                 (JObj (("name", name) :: match lines with Some l => [("lines", l)] | None => [] end)) w
               = get_container_logs name (default (JInt 50) lines) w)
    by (by destruct lines).
  rewrite Hc. unfold get_container_logs, bind, call.
  rewrite Hget; simpl. rewrite Hlogs; simpl. unfold decode. rewrite Hdec.
  unfold ret. by rewrite <- app_assoc.
Qed.

(** X11. [execute_in_container] reports the exit code as data: whatever
    code the command ends with, zero or not, the dispatch returns it with
    the decoded output and raises nothing. *)
Theorem execute_in_container_reports_exit_code (name command : json)
    (c : Container) (code : Z) (bytes text : string) (e1 e2 : E) (w : World E) :
  perform (ContainersGet name) (env w) = (Ok c, e1) ->
  perform (ExecRun c command) e1 = (Ok (code, bytes), e2) ->
  utf8_decode bytes = Some text ->
  execute_action (JStr "execute_in_container")
    (JObj [("name", name); ("command", command)]) w
  = (Ok (JObj [("exit_code", JInt code); ("output", JStr text)]),
     mkWorld (memory w) (goals w) e2
       (trace w ++ [ECall (ContainersGet name); ECall (ExecRun c command)])).
Proof.
  intros Hget Hexec Hdec.
  assert (Ht : action_dispatch !! "execute_in_container" = Some h_execute_in_container)
    by (vm_compute; reflexivity).
  rewrite (execute_action_in_table _ _ _ _ Ht).
  change (call_and_await h_execute_in_container
            (JObj [("name", name); ("command", command)]) w)
    with (execute_in_container name command w).
  unfold execute_in_container, bind, call.
  rewrite Hget; simpl. rewrite Hexec; simpl. unfold decode. rewrite Hdec.
  unfold ret. by rewrite <- app_assoc.
Qed.

(** X12. Output that is not UTF-8 loses the result after the fact:
    [execute_in_container] decodes the output only after the command has
    run, so when the decoding fails the dispatch raises a
    [UnicodeDecodeError] in the world the command left behind, and the
    exit code is not returned. *)
Theorem undecodable_output_raises_after_the_command (name command : json)
    (c : Container) (code : Z) (bytes : string) (e1 e2 : E) (w : World E) :
  perform (ContainersGet name) (env w) = (Ok c, e1) ->
  perform (ExecRun c command) e1 = (Ok (code, bytes), e2) ->
  utf8_decode bytes = None ->
  exists msg,
    execute_action (JStr "execute_in_container")
      (JObj [("name", name); ("command", command)]) w
    = (Raise (UnicodeDecodeError msg),
       mkWorld (memory w) (goals w) e2
         (trace w ++ [ECall (ContainersGet name); ECall (ExecRun c command)])).
Proof.
  intros Hget Hexec Hdec.
  assert (Ht : action_dispatch !! "execute_in_container" = Some h_execute_in_container)
    by (vm_compute; reflexivity).
  rewrite (execute_action_in_table _ _ _ _ Ht).
  change (call_and_await h_execute_in_container
            (JObj [("name", name); ("command", command)]) w)
    with (execute_in_container name command w).
  unfold execute_in_container, bind, call.
  rewrite Hget; simpl. rewrite Hexec; simpl. unfold decode. rewrite Hdec.
  unfold raise. eexists. by rewrite <- app_assoc.
Qed.

End Handlers.

Section Dispatching.
Context `{PyLib} {E : Type} `{Collaborators E}.

(** X13. [modify_container] forwards what it is not itself given a name
    for: for a parameter mapping with a name and no key [self], the
    dispatch looks the container up and calls update with every other
    key of the mapping, in the mapping's order and unchanged. *)
Theorem modify_container_forwards_keywords
    (kw : dict) (name : json) (c : Container) (e1 e2 : E) (w : World E) :
  dict_get "name" kw = Some name ->
  dict_has "self" kw = false ->
  perform (ContainersGet name) (env w) = (Ok c, e1) ->
  perform (Update c (extra_keywords (handler_sig h_modify_container) kw)) e1 = (Ok tt, e2) ->
  execute_action (JStr "modify_container") (JObj kw) w
  = (Ok (JObj [("message", JStr ("Container modified: " +:+ py_str name))]),
     mkWorld (memory w) (goals w) e2
       (trace w ++ [ECall (ContainersGet name);
                    ECall (Update c (extra_keywords (handler_sig h_modify_container) kw))])).
Proof.
  intros Hn Hself Hget Hupd.
  assert (Ht : action_dispatch !! "modify_container" = Some h_modify_container)
    by (vm_compute; reflexivity).
  rewrite (execute_action_in_table _ _ _ _ Ht).
  assert (Hc : call_and_await h_modify_container (JObj kw) w
               = modify_container name (extra_keywords (handler_sig h_modify_container) kw) w).
  { unfold call_and_await, bind, lift. simpl unpack_mapping. cbv iota beta.
    rewrite bind_arguments_ok.
    - unfold handler_body, arg, fill_params; simpl. by rewrite Hn.
    - by apply check_keywords_var_keyword.
    - intros k [<-|[]]. by eapply dict_has_of_get. }
  rewrite Hc. unfold modify_container, bind, call.
  rewrite Hget. cbv beta iota zeta. cbn [env]. rewrite Hupd. cbv beta iota zeta.
  unfold ret. cbn [memory goals trace]. by rewrite <- app_assoc.
Qed.

(** X14. The handlers without [**kwargs] ([delete_container],
    [set_goal], [list_containers], [get_container_logs],
    [execute_in_container]) take no other keyword than their own
    parameters: a parameter mapping with any other key makes the dispatch
    raise a [TypeError] before the handler's body runs, leaving the
    world as it was. *)
Theorem unexpected_keyword_raises (a k : string) (v : json) (h : handler) (kw : dict) :
  action_dispatch !! a = Some h ->
  var_keyword (handler_sig h) = false ->
  In (k, v) kw ->
  is_param (handler_sig h) k = false ->
  exists msg,
    forall w : World E, execute_action (JStr a) (JObj kw) w = (Raise (TypeError msg), w).
Proof.
  intros Ha Hv Hin Hk.
  destruct (check_keywords_unexpected (handler_sig h) kw k v Hv Hin Hk) as [msg Hc].
  exists msg. intros w. rewrite (execute_action_in_table _ _ _ _ Ha).
  unfold call_and_await, bind, lift. simpl unpack_mapping. cbv iota beta.
  unfold bind_arguments. by rewrite Hc.
Qed.

(** X15. For an action of the dispatch table, parameters that are not a
    mapping (a list, a string, a number, null) make the dispatch raise a
    [TypeError] before the handler's body runs, leaving the world as it
    was. *)
Theorem non_mapping_parameters_raise (a : string) (h : handler) (p : json) :
  action_dispatch !! a = Some h ->
  (forall kw, p <> JObj kw) ->
  exists msg,
    forall w : World E, execute_action (JStr a) p w = (Raise (TypeError msg), w).
Proof.
  intros Ha Hp.
  exists (module_name +:+ "." +:+ qualname (handler_sig h)
            +:+ " argument after ** must be a mapping, not " +:+ py_type_name p).
  intros w. rewrite (execute_action_in_table _ _ _ _ Ha).
  unfold call_and_await, bind, lift.
  destruct p as [| | | | | |fields]; try done. by destruct (Hp fields).
Qed.

(** X16. An action that is not a string never reaches a handler. A
    number, a boolean or null is looked up, is not found, and yields the
    unknown-action result with the value rendered by [str]; a list or a
    dict cannot be a dict key and makes the lookup raise a [TypeError].
    The world is as it was in both cases. Such an action differs from
    ["none"], so the background loop does hand it to the dispatcher. *)
Theorem non_string_action_runs_no_handler (a p : json) (w : World E) :
  (forall s, a <> JStr s) ->
  execute_action a p w
  = (if py_hashable a
     then Ok (JObj [("error", JStr ("Unknown action: " +:+ py_str a))])
     else Raise (TypeError ("unhashable type: '" +:+ py_type_name a +:+ sq)),
     w) /\
  py_ne_str a "none" = true.
Proof.
  intros Ha. destruct a; try done. by destruct (Ha s).
Qed.

Lemma handler_body_backend_calls h b (w : World E) :
  exists evs,
    trace (snd (handler_body h b w)) = trace w ++ evs /\
    length evs <= 2 /\
    forallb is_backend_call evs = true.
Proof.
  destruct h; simpl;
    unfold create_container, delete_container, modify_container, set_goal,
      list_containers, get_container_logs, execute_in_container, decode,
      bind, call, ret, raise, goals_append;
    repeat match goal with
      | |- context [perform ?c ?e] => destruct (perform c e) as [[?|?] ?]; simpl
      | |- context [if ?b then _ else _] => destruct b; simpl
      | |- context [utf8_decode ?x] => destruct (utf8_decode x); simpl
      end;
    first [ exists []; split; [by rewrite app_nil_r | by split; [simpl; lia|]]
          | eexists [_]; split; [reflexivity | by split; [simpl; lia|]]
          | eexists [_; _]; split; [by rewrite <- app_assoc | by split; [simpl; lia|]] ].
Qed.

(** The events of a dispatch. *)
Lemma execute_action_backend_calls (a p : json) (w : World E) :
  exists evs,
    trace (snd (execute_action a p w)) = trace w ++ evs /\
    length evs <= 2 /\
    forallb is_backend_call evs = true.
Proof.
  assert (Hstay : exists evs : list Event,
             trace w = trace w ++ evs /\ length evs <= 2 /\
             forallb is_backend_call evs = true)
    by (exists []; rewrite app_nil_r; split; [done | split; [simpl; lia | done]]).
  unfold execute_action, bind, lift, ret.
  destruct (dispatch_get a) as [[h|]|e]; [|exact Hstay..].
  unfold call_and_await, bind, lift.
  destruct (unpack_mapping (handler_sig h) p) as [kw|e]; [|exact Hstay].
  destruct (bind_arguments (handler_sig h) kw) as [b|e]; [|exact Hstay].
  pose proof (handler_body_backend_calls h b w) as Hb.
  destruct (is_async (handler_sig h)); [exact Hb|].
  unfold bind, raise. by destruct (handler_body h b w) as [[r|e] w'].
Qed.

Lemma backend_calls_only (evs : list Event) :
  forallb is_backend_call evs = true -> oracle_calls evs = 0 /\ sleeps evs = [].
Proof.
  induction evs as [|ev evs IH]; [done|]. simpl. intros Hb.
  apply andb_true_iff in Hb as [Hev Hevs]. destruct (IH Hevs) as [Ho Hs].
  unfold oracle_calls in *. destruct ev as [A c| |]; try done.
  destruct c; try done; simpl; by rewrite ?Ho, ?Hs.
Qed.

(** X17. A dispatch talks to the Docker client only, and briefly:
    whatever the action and the parameters, [execute_action] adds at
    most two events to the trace, all of them calls on the Docker
    client; it never calls the oracle, never logs and never sleeps. *)
Theorem dispatch_makes_at_most_two_backend_calls (a p : json) (w : World E) :
  exists evs,
    trace (snd (execute_action a p w)) = trace w ++ evs /\
    length evs <= 2 /\
    forallb is_backend_call evs = true /\
    oracle_calls evs = 0 /\
    sleeps evs = [].
Proof.
  destruct (execute_action_backend_calls a p w) as (evs & Htr & Hlen & Hb).
  exists evs. destruct (backend_calls_only evs Hb) as [Ho Hs]. done.
Qed.

End Dispatching.

Section Looping.
Context `{PyLib} {E : Type} `{Collaborators E}.

Lemma py_join_from_non_string i sep l :
  Exists (fun g => is_string g = false) l ->
  exists msg, py_join_from i sep l = Raise (TypeError msg).
Proof.
  revert i. induction l as [|x rest IH]; intros i Hex; [by inversion Hex|].
  cbn [py_join_from]. destruct x; try (by eexists).
  inversion Hex as [? ? Hx|? ? Hrest]; subst; [done|].
  destruct rest as [|y rest]; [by inversion Hrest|].
  destruct (IH (S i) Hrest) as [msg ->]. by eexists.
Qed.

(** With a goal that is no string, the prompt cannot be built: the
    oracle is not asked. *)
Lemma ask_oracle_non_string_goal (w : World E) :
  Exists (fun g => is_string g = false) (goals w) ->
  (exists e, fst (ask_oracle w) = Raise e) /\
  (forall st w1, get_system_state w = (Ok st, w1) ->
     exists msg, ask_oracle w = (Raise (TypeError msg), w1)) /\
  oracle_calls (trace (snd (ask_oracle w))) = oracle_calls (trace w) /\
  memory (snd (ask_oracle w)) = memory w /\
  goals (snd (ask_oracle w)) = goals w.
Proof.
  intros Hex. unfold ask_oracle, bind, get_memory, get_goals, lift.
  destruct (get_system_state_trace w) as (evs & Htr & Hev & Hm & Hg).
  destruct (get_system_state w) as [[st|e] w1]; simpl in Htr, Hm, Hg.
  - assert (Hj : exists msg, goals_str (goals w1) = Raise (TypeError msg)).
    { rewrite Hg. unfold goals_str. destruct (goals w) as [|g gs]; [by inversion Hex|].
      by apply py_join_from_non_string. }
    destruct Hj as [msg Hj]. rewrite Hj; simpl.
    split; [by eexists|]. split.
    + intros st' w1' Heq. simplify_eq. by exists msg.
    + rewrite Htr, oracle_calls_app, Hev. split; [lia | done].
  - simpl. split; [by eexists|]. split; [done|].
    rewrite Htr, oracle_calls_app, Hev. split; [lia | done].
Qed.

Lemma ai_loop_iter_non_string_goal (w : World E) :
  Exists (fun g => is_string g = false) (goals w) ->
  oracle_calls (trace (snd (ai_loop_iter w))) = oracle_calls (trace w) /\
  memory (snd (ai_loop_iter w)) = memory w /\
  goals (snd (ai_loop_iter w)) = goals w.
Proof.
  intros Hex. destruct (ask_oracle_non_string_goal w Hex) as ([e He] & _ & Ho & Hm & Hg).
  unfold ai_loop_iter, try_except, loop_body, think, bind.
  destruct (ask_oracle w) as [[r|e'] w1]; simpl in *; [done|].
  destruct (is_Exception e'); [|done].
  unfold log, sleep, emit; simpl. split; [|done].
  rewrite !oracle_calls_app, Ho. unfold oracle_calls at 2 3. simpl. lia.
Qed.

(** X18. A goal that is no string stops the loop from deciding. The
    goals are joined with newlines for the prompt, which raises on a
    value that is no string; since a goal is never removed, from then on
    every call of [think] raises (a [TypeError] whenever the snapshot
    succeeds) before the oracle is asked, and any number of iterations of
    the background loop makes no oracle call and leaves memory and goals
    as they were. *)
Theorem non_string_goal_silences_the_oracle (w : World E) :
  Exists (fun g => is_string g = false) (goals w) ->
  (exists e, fst (think w) = Raise e) /\
  (forall st w1, get_system_state w = (Ok st, w1) ->
     exists msg, think w = (Raise (TypeError msg), w1)) /\
  forall n : nat,
    oracle_calls (trace (snd (ai_loop n w))) = oracle_calls (trace w) /\
    memory (snd (ai_loop n w)) = memory w /\
    goals (snd (ai_loop n w)) = goals w.
Proof.
  intros Hex. destruct (ask_oracle_non_string_goal w Hex) as ([e He] & Hty & _).
  split; [|split].
  - exists e. unfold think, bind.
    destruct (ask_oracle w) as [[r|e'] w1]; simpl in *; by simplify_eq.
  - intros st w1 Hs. destruct (Hty st w1 Hs) as [msg Hmsg]. exists msg.
    unfold think, bind. by rewrite Hmsg.
  - intros n. clear e He Hty. revert w Hex.
    induction n as [|n IH]; intros w Hex; [done|].
    destruct (ai_loop_iter_non_string_goal w Hex) as (Ho & Hm & Hg).
    cbn [ai_loop]. unfold bind.
    destruct (ai_loop_iter w) as [[[]|e'] w1]; simpl in *; [|done].
    assert (Hex1 : Exists (fun g => is_string g = false) (goals w1)) by (by rewrite Hg).
    destruct (IH w1 Hex1) as (Ho1 & Hm1 & Hg1).
    by rewrite Ho1, Hm1, Hg1.
Qed.

Lemma memory_after_bind {A B} (m : M E A) (k : A -> M E B) (w : World E) :
  (forall a, preserves memory (k a)) ->
  memory (snd (bind m k w)) = memory (snd (m w)).
Proof.
  intros Hk. unfold bind. destruct (m w) as [[a|e] w1]; [|done]. apply Hk.
Qed.

Hint Resolve memory_log memory_sleep memory_execute_action : frame.

(** What an iteration does to the memory is what its [think] does. *)
Lemma ai_loop_iter_memory (w : World E) :
  memory (snd (ai_loop_iter w)) = memory (snd (think w)).
Proof.
  assert (Hbody : memory (snd (loop_body w)) = memory (snd (think w))).
  { unfold loop_body. apply memory_after_bind. intros d. frame. }
  unfold ai_loop_iter, try_except.
  destruct (loop_body w) as [[[]|e] w1]; simpl in *; [done|].
  destruct (is_Exception e); [|done]. by rewrite <- Hbody.
Qed.

Lemma interact_memory u (w : World E) :
  memory (snd (interact_with_ai u w)) = memory (snd (think w)).
Proof. unfold interact_with_ai. apply memory_after_bind. intros d. frame. Qed.

(** X19. The memory grows by at most one entry per cycle and is never
    cut: an iteration of the loop and a call of the interact endpoint end
    with the memory that their [think] left, which is the memory they
    started from or that memory and one more entry, and after [n]
    iterations the memory holds between as many entries as before and
    [n] more. *)
Theorem memory_grows_by_at_most_one_per_cycle :
  (forall w : World E, memory (snd (ai_loop_iter w)) = memory (snd (think w))) /\
  (forall u (w : World E), memory (snd (interact_with_ai u w)) = memory (snd (think w))) /\
  (forall w : World E, length (memory (snd (think w))) <= S (length (memory w))) /\
  (forall n (w : World E),
     length (memory w) <= length (memory (snd (ai_loop n w))) <= length (memory w) + n).
Proof.
  assert (Hthink : forall w : World E, length (memory (snd (think w))) <= S (length (memory w))).
  { intros w. destruct (think_memory w) as [->|(ts & d & _ & ->)]; [lia|].
    rewrite length_app; simpl. lia. }
  split; [apply ai_loop_iter_memory|]. split; [apply interact_memory|].
  split; [exact Hthink|].
  intros n w. split; [apply prefix_length, extends_ai_loop|].
  revert w. induction n as [|n IH]; intros w; [simpl; lia|].
  cbn [ai_loop]. unfold bind.
  pose proof (ai_loop_iter_memory w) as Hi. pose proof (Hthink w) as Ht.
  destruct (ai_loop_iter w) as [[[]|e] w1]; simpl in *.
  - specialize (IH w1). rewrite Hi in IH. lia.
  - rewrite Hi. lia.
Qed.

End Looping.

Section OracleCalls.
Context `{PyLib} {E : Type} `{Collaborators E}.

Lemma oracle_calls_log lvl msg : preserves oracle_calls_of (@log E lvl msg).
Proof.
  intros w. unfold oracle_calls_of, log, emit. cbn [snd]. rewrite oracle_calls_tell.
  unfold oracle_calls at 2. simpl. lia.
Qed.

Lemma oracle_calls_sleep secs : preserves oracle_calls_of (@sleep E secs).
Proof.
  intros w. unfold oracle_calls_of, sleep, emit. cbn [snd]. rewrite oracle_calls_tell.
  unfold oracle_calls at 2. simpl. lia.
Qed.

Lemma oracle_calls_now : preserves oracle_calls_of now_isoformat.
Proof. intros w. unfold now_isoformat. by destruct (clock_now (env w)). Qed.

Lemma oracle_calls_memory_append x : preserves oracle_calls_of (@memory_append E x).
Proof. done. Qed.

Lemma oracle_calls_execute_action a p : preserves oracle_calls_of (execute_action a p).
Proof.
  intros w. destruct (execute_action_backend_calls a p w) as (evs & Htr & _ & Hb).
  destruct (backend_calls_only evs Hb) as [Ho _].
  unfold oracle_calls_of. rewrite Htr, oracle_calls_app, Ho. lia.
Qed.

Hint Resolve oracle_calls_log oracle_calls_sleep oracle_calls_now
  oracle_calls_memory_append oracle_calls_execute_action : frame.

Lemma oracle_calls_record_decision response :
  preserves oracle_calls_of (record_decision response).
Proof. unfold record_decision. frame. Qed.

Lemma oracle_calls_ask_oracle (w : World E) :
  oracle_calls_of (snd (ask_oracle w)) <= S (oracle_calls_of w).
Proof.
  unfold oracle_calls_of, ask_oracle, bind, get_memory, get_goals, lift.
  destruct (get_system_state_trace w) as (evs & Htr & Hev & _).
  destruct (get_system_state w) as [[st|e] w1]; simpl in Htr;
    [|simpl; rewrite Htr, oracle_calls_app; lia].
  destruct (goals_str (goals w1)) as [gs|e]; simpl;
    [|rewrite Htr, oracle_calls_app; lia].
  unfold call. destruct (perform _ (env w1)) as [r e']; simpl.
  rewrite Htr, !oracle_calls_app, Hev. unfold oracle_calls at 2. simpl. lia.
Qed.

(** One more oracle call at most, when only the first step can make
    one. *)
Lemma oracle_calls_after_bind {A B} (m : M E A) (k : A -> M E B) (w : World E) :
  (forall a, preserves oracle_calls_of (k a)) ->
  oracle_calls_of (snd (bind m k w)) = oracle_calls_of (snd (m w)).
Proof.
  intros Hk. unfold bind. destruct (m w) as [[a|e] w1]; [|done]. apply Hk.
Qed.

Lemma oracle_calls_think (w : World E) :
  oracle_calls_of (snd (think w)) <= S (oracle_calls_of w).
Proof.
  unfold think. rewrite oracle_calls_after_bind; [apply oracle_calls_ask_oracle|].
  apply oracle_calls_record_decision.
Qed.

Lemma oracle_calls_ai_loop_iter (w : World E) :
  oracle_calls_of (snd (ai_loop_iter w)) <= S (oracle_calls_of w).
Proof.
  assert (Hbody : oracle_calls_of (snd (loop_body w)) = oracle_calls_of (snd (think w))).
  { unfold loop_body. apply oracle_calls_after_bind. intros d. frame. }
  pose proof (oracle_calls_think w) as Ht.
  unfold ai_loop_iter, try_except.
  destruct (loop_body w) as [[[]|e] w1]; simpl in *; [lia|].
  destruct (is_Exception e); [|simpl; lia].
  assert (Hh : preserves oracle_calls_of
                 (log ERROR ("Error in AI loop: " +:+ exn_str e) ;;; @sleep E 60)) by frame.
  rewrite Hh. lia.
Qed.

(** X20. The oracle is asked at most once per cycle: a call of [think],
    an iteration of the background loop and a call of the interact
    endpoint each add at most one oracle call to the trace, whatever the
    decision and the outcome of its dispatch, and [n] iterations add at
    most [n]. *)
Theorem one_oracle_call_per_cycle :
  (forall w : World E, oracle_calls_of (snd (think w)) <= S (oracle_calls_of w)) /\
  (forall w : World E, oracle_calls_of (snd (ai_loop_iter w)) <= S (oracle_calls_of w)) /\
  (forall u (w : World E),
     oracle_calls_of (snd (interact_with_ai u w)) <= S (oracle_calls_of w)) /\
  (forall n (w : World E), oracle_calls_of (snd (ai_loop n w)) <= oracle_calls_of w + n).
Proof.
  split; [apply oracle_calls_think|]. split; [apply oracle_calls_ai_loop_iter|]. split.
  - intros u w. unfold interact_with_ai.
    rewrite oracle_calls_after_bind; [apply oracle_calls_think|]. intros d. frame.
  - intros n. induction n as [|n IH]; intros w; [simpl; lia|].
    cbn [ai_loop]. unfold bind. pose proof (oracle_calls_ai_loop_iter w) as Hi.
    destruct (ai_loop_iter w) as [[[]|e] w1]; simpl in *; [|lia].
    specialize (IH w1). lia.
Qed.

End OracleCalls.

(* ===================================================================== *)
(** ** The properties on the test double *)
(* ===================================================================== *)

Import Mock.

(** The scripted oracle and the in-memory pool fail with errors only. *)
Lemma mock_errors_only : errors_only Mock.ext.
Proof.
  intros A c e x Hx.
  destruct c; simpl in Hx; repeat case_match; simpl in Hx; by simplify_eq.
Qed.

(** Three iterations with the oracle down: each failure is caught,
    logged and followed by the sleep; the loop is still running and has
    slept three times. *)
Lemma loop_durability_witness :
  errors_only Mock.ext /\
  loop_body oracle_down_run
  = (Raise (OracleError "connection refused"), snd (loop_body oracle_down_run)) /\
  ai_loop_iter oracle_down_run
  = (Ok tt,
     tell [ELog ERROR "Error in AI loop: connection refused"; ESleep 60]
       (snd (loop_body oracle_down_run))) /\
  fst (ai_loop 3 oracle_down_run) = Ok tt /\
  sleeps_of (snd (ai_loop 3 oracle_down_run)) = sleeps_of oracle_down_run ++ repeat 60%Z 3.
Proof.
  assert (H1 : loop_body oracle_down_run
               = (Raise (OracleError "connection refused"), snd (loop_body oracle_down_run)))
    by (vm_compute; reflexivity).
  destruct (loop_durability mock_errors_only 3 oracle_down_run) as (Hcatch & Hrun & Hsleeps).
  split; [exact mock_errors_only|]. split; [exact H1|].
  split; [exact (Hcatch _ _ H1)|]. split; [exact Hrun | exact Hsleeps].
Defined.

(** Without that condition the loop can end: a cancellation is not an
    [Exception], and leaves the [while] loop. *)
Example cancellation_ends_the_loop :
  fst (@ai_loop Mock.pylib unit Shutdown.collaborators 1 Shutdown.start) = Raise CancelledError.
Proof. vm_compute. reflexivity. Qed.

(** The oracle answers ["not json"]: the fallback is returned and
    logged. The oracle answers an integer of 4301 digits: the
    [ValueError] of [json.loads] leaves [think], and the loop catches
    it. *)
Lemma malformed_response_witness :
  ask_oracle malformed_run = (Ok "not json", snd (ask_oracle malformed_run)) /\
  json_loads "not json" = NotJSON "Expecting value: line 1 column 1 (char 0)" /\
  think malformed_run
  = (Ok fallback_decision,
     tell [ELog ERROR "Invalid JSON response from AI: not json"] (snd (ask_oracle malformed_run))) /\
  memory (snd (think malformed_run)) = memory malformed_run /\
  ask_oracle long_integer_run = (Ok long_integer, snd (ask_oracle long_integer_run)) /\
  json_loads long_integer
  = LoadsFailed (DigitLimit "Exceeds the limit (4300 digits) for integer string conversion") /\
  think long_integer_run
  = (Raise (ValueError "Exceeds the limit (4300 digits) for integer string conversion"),
     snd (ask_oracle long_integer_run)) /\
  ai_loop_iter long_integer_run
  = (Ok tt,
     tell [ELog ERROR "Error in AI loop: Exceeds the limit (4300 digits) for integer string conversion";
           ESleep 60] (snd (ask_oracle long_integer_run))) /\
  memory (snd (think long_integer_run)) = memory long_integer_run.
Proof.
  assert (H1 : ask_oracle malformed_run = (Ok "not json", snd (ask_oracle malformed_run)))
    by (vm_compute; reflexivity).
  assert (H2 : json_loads "not json" = NotJSON "Expecting value: line 1 column 1 (char 0)")
    by reflexivity.
  assert (H3 : forall d, json_loads "not json" <> Loaded d)
    by (intros d Hd; rewrite H2 in Hd; discriminate Hd).
  assert (H4 : ask_oracle long_integer_run
               = (Ok long_integer, snd (ask_oracle long_integer_run)))
    by (vm_compute; reflexivity).
  assert (H5 : json_loads long_integer
               = LoadsFailed (DigitLimit
                                "Exceeds the limit (4300 digits) for integer string conversion"))
    by (vm_compute; reflexivity).
  assert (H6 : forall d, json_loads long_integer <> Loaded d)
    by (intros d Hd; rewrite H5 in Hd; discriminate Hd).
  destruct (malformed_response_falls_back malformed_run _ "not json" H1 H3)
    as (Hm & _ & _ & _ & _ & Hnot & _).
  destruct (malformed_response_falls_back long_integer_run _ long_integer H4 H6)
    as (Hm' & _ & _ & _ & _ & _ & Hfail).
  destruct (Hnot _ H2) as [Ht _]. destruct (Hfail _ H5) as [Ht' Hl'].
  split; [exact H1|]. split; [exact H2|]. split; [exact Ht|]. split; [exact Hm|].
  split; [exact H4|]. split; [exact H5|]. split; [exact Ht'|]. split; [exact Hl' | exact Hm'].
Defined.

(** The claim C2 as stated fails on ["not json"]: the memory does not
    grow by an entry. It fails on an integer of 4301 digits as well: the
    response does not decode, and an exception escapes [think]. *)
Lemma malformed_response_appends_nothing :
  fst (ask_oracle malformed_run) = Ok "not json" /\
  (forall d, json_loads "not json" <> Loaded d) /\
  fst (think malformed_run) = Ok fallback_decision /\
  ~ (exists entry, memory (snd (think malformed_run)) = memory malformed_run ++ [entry]) /\
  fst (ask_oracle long_integer_run) = Ok long_integer /\
  (forall d, json_loads long_integer <> Loaded d) /\
  ~ (exists d, fst (think long_integer_run) = Ok d).
Proof.
  split; [vm_compute; reflexivity|].
  split; [intros d Hd; vm_compute in Hd; discriminate Hd|].
  split; [vm_compute; reflexivity|].
  split; [intros [entry He]; vm_compute in He; discriminate He|].
  split; [vm_compute; reflexivity|].
  split; [intros d Hd; vm_compute in Hd; discriminate Hd|].
  intros [d Hd]. vm_compute in Hd. discriminate Hd.
Qed.

(** The oracle asks for the removal of [db]: the result is logged, and
    the dispatcher alone, on the same pool, returns the message. *)
Lemma dispatch_result_witness :
  think delete_db_run = (Ok delete_db, snd (think delete_db_run)) /\
  py_getitem delete_db "action" = Ok (JStr "delete_container") /\
  py_ne_str (JStr "delete_container") "none" = true /\
  py_getitem delete_db "parameters" = Ok (JObj [("name", JStr "db")]) /\
  ai_loop_iter delete_db_run
  = (Ok tt,
     tell [ELog INFO ("Action Result: "
                      +:+ json_dumps (Some 2) (JObj [("message", JStr "Container deleted: db")]));
           ESleep 60]
       (snd (execute_action (JStr "delete_container") (JObj [("name", JStr "db")])
               (tell [ELog INFO ("AI Decision: " +:+ json_dumps (Some 2) delete_db)]
                  (snd (think delete_db_run)))))) /\
  execute_action (JStr "delete_container") (JObj [("name", JStr "db")]) oracle_down_run
  = (Ok (JObj [("message", JStr "Container deleted: db")]),
     mkWorld [] [] (mkExt [] [web]) [ECall (ContainersGet (JStr "db")); ECall (Remove db)]).
Proof.
  assert (H1 : think delete_db_run = (Ok delete_db, snd (think delete_db_run)))
    by (vm_compute; reflexivity).
  assert (H2 : execute_action (JStr "delete_container") (JObj [("name", JStr "db")])
                 (tell [ELog INFO ("AI Decision: " +:+ json_dumps (Some 2) delete_db)]
                    (snd (think delete_db_run)))
               = (Ok (JObj [("message", JStr "Container deleted: db")]),
                  snd (execute_action (JStr "delete_container") (JObj [("name", JStr "db")])
                         (tell [ELog INFO ("AI Decision: " +:+ json_dumps (Some 2) delete_db)]
                            (snd (think delete_db_run))))))
    by (vm_compute; reflexivity).
  destruct (dispatch_result_is_logged delete_db_run _ _ delete_db
              (JStr "delete_container") (JObj [("name", JStr "db")]) _
              H1 eq_refl eq_refl eq_refl H2) as (Hiter & _ & Hdel).
  split; [exact H1|]. do 3 (split; [reflexivity|]). split; [exact Hiter|].
  apply (Hdel "db" db (mkExt [] [web; db]) (mkExt [] [web]) oracle_down_run); reflexivity.
Defined.

(** The claim C3 as stated fails on that run: [db] was removed and the
    result was logged, and the one memory entry of the cycle holds the
    timestamp and the decision, with no result in it. *)
Lemma dispatch_result_not_in_memory :
  fst (ai_loop_iter delete_db_run) = Ok tt /\
  (exists pre,
     trace (snd (ai_loop_iter delete_db_run))
     = pre ++ [ECall (ContainersGet (JStr "db")); ECall (Remove db);
               ELog INFO ("Action Result: "
                          +:+ dumps (JObj [("message", JStr "Container deleted: db")]));
               ESleep 60]) /\
  memory (snd (ai_loop_iter delete_db_run))
  = [memory_entry "2024-05-01T12:00:00.000000" delete_db] /\
  ~ (exists entry result,
       In entry (memory (snd (ai_loop_iter delete_db_run))) /\
       py_getitem entry "result" = Ok result).
Proof.
  split; [vm_compute; reflexivity|].
  split.
  { exists (take 6 (trace (snd (ai_loop_iter delete_db_run)))). vm_compute. reflexivity. }
  assert (Hm : memory (snd (ai_loop_iter delete_db_run))
               = [memory_entry "2024-05-01T12:00:00.000000" delete_db])
    by (vm_compute; reflexivity).
  split; [exact Hm|].
  intros (entry & result & Hin & Hres). rewrite Hm in Hin.
  destruct Hin as [<-|[]]. vm_compute in Hres. discriminate Hres.
Qed.

(** A removal that names no container: the dispatcher raises, and the
    iteration of the loop that dispatched it logs the error and sleeps. *)
Lemma missing_parameter_witness :
  action_dispatch !! "delete_container" = Some h_delete_container /\
  In "name" (required (handler_sig h_delete_container)) /\
  dict_get "name" [] = None /\
  think delete_unnamed_run = (Ok delete_unnamed, snd (think delete_unnamed_run)) /\
  exists msg,
    execute_action (JStr "delete_container") (JObj []) oracle_down_run
    = (Raise (TypeError msg), oracle_down_run) /\
    ai_loop_iter delete_unnamed_run
    = (Ok tt,
       tell [ELog INFO ("AI Decision: " +:+ json_dumps (Some 2) delete_unnamed);
             ELog ERROR ("Error in AI loop: " +:+ msg);
             ESleep 60] (snd (think delete_unnamed_run))).
Proof.
  assert (H1 : In "name" (required (handler_sig h_delete_container))) by (simpl; by left).
  assert (H2 : think delete_unnamed_run = (Ok delete_unnamed, snd (think delete_unnamed_run)))
    by (vm_compute; reflexivity).
  destruct (missing_parameter_raises (E := Mock.ext) "delete_container" "name"
              h_delete_container [] delete_container_in_table H1 eq_refl)
    as (msg & Hx & Hloop).
  split; [exact delete_container_in_table|]. split; [exact H1|]. split; [reflexivity|].
  split; [exact H2|]. exists msg. split; [apply Hx|].
  apply (Hloop delete_unnamed_run _ delete_unnamed H2); reflexivity.
Defined.

(** The claim C4 as stated fails on a removal that names no container:
    no result is returned, the [TypeError] leaves the dispatcher, and
    leaves the interact endpoint as well. *)
Lemma missing_name_is_not_a_result :
  action_dispatch !! "delete_container" = Some h_delete_container /\
  fst (execute_action (JStr "delete_container") (JObj []) oracle_down_run)
  = Raise (TypeError "AutonomousAI.delete_container() missing 1 required positional argument: 'name'") /\
  ~ (exists r, fst (execute_action (JStr "delete_container") (JObj []) oracle_down_run) = Ok r) /\
  fst (interact_with_ai "hello" delete_unnamed_run)
  = Raise (TypeError "AutonomousAI.delete_container() missing 1 required positional argument: 'name'").
Proof.
  split; [exact delete_container_in_table|].
  assert (Hx : fst (execute_action (JStr "delete_container") (JObj []) oracle_down_run)
               = Raise (TypeError "AutonomousAI.delete_container() missing 1 required positional argument: 'name'"))
    by (vm_compute; reflexivity).
  split; [exact Hx|]. split.
  - intros [r Hr]. rewrite Hx in Hr. discriminate Hr.
  - vm_compute. reflexivity.
Qed.

(** An action outside the table, on the test double. *)
Lemma unknown_action_witness :
  action_dispatch !! "restart_container" = None /\
  execute_action (JStr "restart_container") (JObj [("name", JStr "web")]) oracle_down_run
  = (Ok (JObj [("error", JStr "Unknown action: restart_container")]), oracle_down_run).
Proof.
  split; [vm_compute; reflexivity|].
  apply (unknown_action_is_reported "restart_container" (JObj [("name", JStr "web")])
           oracle_down_run).
  vm_compute. reflexivity.
Defined.

(** Twelve entries in memory: the last ten go into the prompt. *)
Lemma recent_memory_witness :
  memory busy_run = past_decisions /\
  ask_oracle busy_run = (Ok "not json", snd (ask_oracle busy_run)) /\
  length (recent_memory past_decisions) = Nat.min 10 (length past_decisions) /\
  recent_memory past_decisions = drop (length past_decisions - 10) past_decisions /\
  exists system_state goals_s,
    last (trace (snd (ask_oracle busy_run)))
    = Some (ECall (Ainvoke (build_prompt system_state (memory_str past_decisions) goals_s))).
Proof.
  assert (H1 : memory busy_run = past_decisions) by reflexivity.
  assert (H2 : ask_oracle busy_run = (Ok "not json", snd (ask_oracle busy_run)))
    by (vm_compute; reflexivity).
  destruct (recent_memory_is_a_bounded_suffix past_decisions)
    as (_ & _ & Hlen & _ & Hdrop & _ & Hprompt).
  split; [exact H1|]. split; [exact H2|]. split; [exact Hlen|]. split; [exact Hdrop|].
  exact (Hprompt busy_run _ "not json" H1 H2).
Defined.

(** C7 on a run: the goal of the specification's scenario is appended,
    and the dispatch ends in a [TypeError]. *)
Example set_goal_dispatch_on_scenario :
  execute_action (JStr "set_goal") (JObj [("goal", JStr "reduce idle containers")])
    oracle_down_run
  = (Raise (TypeError "object dict can't be used in 'await' expression"),
     mkWorld [] [JStr "reduce idle containers"] (env oracle_down_run) []).
Proof. vm_compute. reflexivity. Qed.

(** The fallback decision in the background loop: no dispatch. *)
Lemma none_is_never_dispatched_witness :
  think malformed_run = (Ok fallback_decision, snd (think malformed_run)) /\
  py_getitem fallback_decision "action" = Ok (JStr "none") /\
  ai_loop_iter malformed_run
  = (Ok tt,
     tell [ELog INFO ("AI Decision: " +:+ json_dumps (Some 2) fallback_decision); ESleep 60]
       (snd (think malformed_run))).
Proof.
  assert (H1 : think malformed_run = (Ok fallback_decision, snd (think malformed_run)))
    by (vm_compute; reflexivity).
  split; [exact H1|]. split; [reflexivity|].
  apply (none_is_never_dispatched malformed_run _ fallback_decision H1). reflexivity.
Defined.

(** The fallback decision at the interact endpoint: it is dispatched. *)
Lemma interact_dispatches_none_witness :
  think malformed_run = (Ok fallback_decision, snd (think malformed_run)) /\
  interact_with_ai "hello" malformed_run
  = (Ok (JObj [("ai_thought_process", JStr "Error in decision making");
               ("ai_action", JStr "none");
               ("ai_explanation", JStr "There was an error in processing the AI's response.");
               ("action_result", JObj [("error", JStr "Unknown action: none")])]),
     snd (think malformed_run)).
Proof.
  assert (H1 : think malformed_run = (Ok fallback_decision, snd (think malformed_run)))
    by (vm_compute; reflexivity).
  split; [exact H1|].
  apply (interact_dispatches_none "hello" malformed_run _ fallback_decision (JObj []) _ _ H1);
    reflexivity.
Defined.

(** The claim C10 as stated fails on a decision that has the action
    ["none"] and no parameters: the endpoint raises a [KeyError] before
    the dispatcher is called, and there is no response. *)
Lemma interact_bare_none_raises :
  fst (think bare_none_run) = Ok bare_none /\
  py_getitem bare_none "action" = Ok (JStr "none") /\
  fst (interact_with_ai "hello" bare_none_run) = Raise (KeyError "parameters") /\
  ~ (exists response,
       fst (interact_with_ai "hello" bare_none_run) = Ok response /\
       py_getitem response "action_result" = Ok (JObj [("error", JStr "Unknown action: none")])).
Proof.
  split; [vm_compute; reflexivity|]. split; [reflexivity|].
  assert (Hx : fst (interact_with_ai "hello" bare_none_run) = Raise (KeyError "parameters"))
    by (vm_compute; reflexivity).
  split; [exact Hx|].
  intros (response & Hr & _). rewrite Hx in Hr. discriminate Hr.
Qed.

(* ===================================================================== *)
(** ** The further properties on the test double *)
(* ===================================================================== *)

(** The snapshot of the pool with [web] and [db]. *)
Lemma snapshot_witness :
  perform ContainersList (env oracle_down_run) = (Ok [web; db], env oracle_down_run) /\
  exists entries,
    get_system_state oracle_down_run
    = (Ok (JObj [("containers", JArr entries);
                 ("images", JArr [JArr [JStr "nginx:latest"]; JArr [JStr "postgres:16"]]);
                 ("networks", JArr [JStr "bridge"]);
                 ("volumes", JArr [])]),
       mkWorld [] [] (env oracle_down_run)
         [ECall ContainersList; ECall ImagesList; ECall NetworksList; ECall VolumesList]) /\
    length entries = 2.
Proof.
  split; [reflexivity|].
  assert (H1 : perform ContainersList (env oracle_down_run)
               = (Ok [web; db], env oracle_down_run)) by reflexivity.
  assert (H2 : perform ImagesList (env oracle_down_run)
               = (Ok [["nginx:latest"]; ["postgres:16"]], env oracle_down_run))
    by reflexivity.
  assert (H3 : perform NetworksList (env oracle_down_run)
               = (Ok ["bridge"], env oracle_down_run)) by reflexivity.
  assert (H4 : perform VolumesList (env oracle_down_run) = (Ok [], env oracle_down_run))
    by reflexivity.
  destruct (snapshot_lists_every_container oracle_down_run _ _ _ _ _ _ _ _ H1 H2 H3 H4)
    as (entries & Hs & Hlen & _).
  exists entries. split; [exact Hs | exact Hlen].
Defined.

(** The Docker daemon cannot be reached: [think] stops at the first
    listing. *)
Lemma snapshot_failure_witness :
  get_system_state (H0 := Lab.failing_collaborators) oracle_down_run
  = (Raise (DockerException "Error while fetching server API version"),
     tell [ECall ContainersList] oracle_down_run) /\
  think (H0 := Lab.failing_collaborators) oracle_down_run
  = (Raise (DockerException "Error while fetching server API version"),
     tell [ECall ContainersList] oracle_down_run) /\
  ai_loop_iter (H0 := Lab.failing_collaborators) oracle_down_run
  = (Ok tt,
     tell [ELog ERROR "Error in AI loop: Error while fetching server API version"; ESleep 60]
       (tell [ECall ContainersList] oracle_down_run)).
Proof.
  assert (H1 : get_system_state (H0 := Lab.failing_collaborators) oracle_down_run
               = (Raise (DockerException "Error while fetching server API version"),
                  tell [ECall ContainersList] oracle_down_run)) by reflexivity.
  destruct (snapshot_failure_skips_the_oracle (H0 := Lab.failing_collaborators)
              oracle_down_run _ _ H1) as (Ht & _ & _ & _ & Hloop).
  split; [exact H1|]. split; [exact Ht|]. exact (Hloop eq_refl).
Defined.

(** The oracle is down: [think] raises and nothing is stored. *)
Lemma failed_think_witness :
  fst (think oracle_down_run) = Raise (OracleError "connection refused") /\
  memory (snd (think oracle_down_run)) = [] /\
  goals (snd (think oracle_down_run)) = [].
Proof.
  assert (H1 : fst (think oracle_down_run) = Raise (OracleError "connection refused"))
    by (vm_compute; reflexivity).
  split; [exact H1|].
  exact (failed_think_changes_nothing oracle_down_run _ H1).
Defined.

(** The oracle asks for the removal of [db]: the decision is stored. *)
Lemma decoded_decision_witness :
  ask_oracle delete_db_run = (Ok (dumps delete_db), snd (ask_oracle delete_db_run)) /\
  json_loads (dumps delete_db) = Loaded delete_db /\
  exists ts e',
    clock_now (env (snd (ask_oracle delete_db_run))) = (ts, e') /\
    think delete_db_run
    = (Ok delete_db,
       mkWorld (memory delete_db_run ++ [memory_entry ts delete_db]) (goals delete_db_run) e'
         (trace (snd (ask_oracle delete_db_run)))) /\
    fst (get_ai_memory (snd (think delete_db_run)))
    = Ok (JObj [("memory", JArr (memory delete_db_run ++ [memory_entry ts delete_db]))]).
Proof.
  assert (H1 : ask_oracle delete_db_run
               = (Ok (dumps delete_db), snd (ask_oracle delete_db_run)))
    by (vm_compute; reflexivity).
  assert (H2 : json_loads (dumps delete_db) = Loaded delete_db) by (vm_compute; reflexivity).
  split; [exact H1|]. split; [exact H2|].
  exact (decoded_decision_is_stored delete_db_run _ _ _ H1 H2).
Defined.

(** The oracle answers [42], and then an action without parameters: in
    both runs the loop logs the error and dispatches nothing. *)
Lemma unreadable_decision_witness :
  think (H := Lab.pylib) (Lab.answering Lab.forty_two)
  = (Ok Lab.forty_two, snd (think (H := Lab.pylib) (Lab.answering Lab.forty_two))) /\
  py_getitem Lab.forty_two "action" = Raise (TypeError "'int' object is not subscriptable") /\
  interact_with_ai (H := Lab.pylib) "hello" (Lab.answering Lab.forty_two)
  = (Raise (TypeError "'int' object is not subscriptable"),
     snd (think (H := Lab.pylib) (Lab.answering Lab.forty_two))) /\
  think (H := Lab.pylib) (Lab.answering Lab.no_parameters)
  = (Ok Lab.no_parameters, snd (think (H := Lab.pylib) (Lab.answering Lab.no_parameters))) /\
  py_getitem Lab.no_parameters "parameters" = Raise (KeyError "parameters") /\
  ai_loop_iter (H := Lab.pylib) (Lab.answering Lab.no_parameters)
  = (Ok tt,
     tell [ELog INFO ("AI Decision: " +:+ dumps Lab.no_parameters);
           ELog ERROR "Error in AI loop: 'parameters'";
           ESleep 60]
       (snd (think (H := Lab.pylib) (Lab.answering Lab.no_parameters)))).
Proof.
  assert (H1 : think (H := Lab.pylib) (Lab.answering Lab.forty_two)
               = (Ok Lab.forty_two, snd (think (H := Lab.pylib) (Lab.answering Lab.forty_two))))
    by (vm_compute; reflexivity).
  assert (H2 : think (H := Lab.pylib) (Lab.answering Lab.no_parameters)
               = (Ok Lab.no_parameters,
                  snd (think (H := Lab.pylib) (Lab.answering Lab.no_parameters))))
    by (vm_compute; reflexivity).
  destruct (unreadable_decision_is_not_dispatched (H := Lab.pylib) "hello"
              (Lab.answering Lab.forty_two) _ Lab.forty_two
              (TypeError "'int' object is not subscriptable") H1 (or_introl eq_refl))
    as [_ Hi].
  destruct (unreadable_decision_is_not_dispatched (H := Lab.pylib) "hello"
              (Lab.answering Lab.no_parameters) _ Lab.no_parameters
              (KeyError "parameters") H2
              (or_intror (ex_intro _ (JStr "list_containers")
                            (conj eq_refl (conj eq_refl eq_refl)))))
    as [Hl _].
  split; [exact H1|]. split; [reflexivity|]. split; [exact Hi|].
  split; [exact H2|]. split; [reflexivity|]. exact Hl.
Defined.

(** A Redis container with a port mapping and a restart policy. *)
Lemma create_container_witness :
  dict_has "detach" [("name", JStr "cache"); ("ports", JObj [("6379/tcp", JInt 6379)]);
                     ("image", JStr "redis:7"); ("restart_policy", JStr "always")] = false /\
  fst (execute_action (JStr "create_container")
         (JObj [("name", JStr "cache"); ("ports", JObj [("6379/tcp", JInt 6379)]);
                ("image", JStr "redis:7"); ("restart_policy", JStr "always")])
         oracle_down_run)
  = Ok (JObj [("message", JStr "Container created: cache (0f1e2d3c4b5a)")]) /\
  trace (snd (execute_action (JStr "create_container")
                (JObj [("name", JStr "cache"); ("ports", JObj [("6379/tcp", JInt 6379)]);
                       ("image", JStr "redis:7"); ("restart_policy", JStr "always")])
                oracle_down_run))
  = [ECall (ContainersRun (JStr "redis:7") (JStr "cache")
              [("ports", JObj [("6379/tcp", JInt 6379)]); ("restart_policy", JStr "always")])].
Proof.
  assert (Hrun : perform
                   (ContainersRun (JStr "redis:7") (JStr "cache")
                      (extra_keywords (handler_sig h_create_container)
                         [("name", JStr "cache"); ("ports", JObj [("6379/tcp", JInt 6379)]);
                          ("image", JStr "redis:7"); ("restart_policy", JStr "always")]))
                   (env oracle_down_run)
                 = (Ok (mkContainer "0f1e2d3c4b5a69788796a5b4c3d2e1f0" "cache" "running"
                          ["redis:7"]),
                    mkExt [] [web; db;
                              mkContainer "0f1e2d3c4b5a69788796a5b4c3d2e1f0" "cache" "running"
                                ["redis:7"]])) by reflexivity.
  assert (Hx := create_container_forwards_keywords
                  [("name", JStr "cache"); ("ports", JObj [("6379/tcp", JInt 6379)]);
                   ("image", JStr "redis:7"); ("restart_policy", JStr "always")]
                  (JStr "cache") (JStr "redis:7") _ _ oracle_down_run
                  eq_refl eq_refl eq_refl eq_refl Hrun).
  split; [reflexivity|]. rewrite Hx. split; reflexivity.
Defined.

(** The same container, asked for with detach set. *)
Lemma create_container_detach_witness :
  dict_has "detach" [("name", JStr "cache"); ("image", JStr "redis:7");
                     ("detach", JBool false)] = true /\
  exists msg,
    execute_action (JStr "create_container")
      (JObj [("name", JStr "cache"); ("image", JStr "redis:7"); ("detach", JBool false)])
      oracle_down_run
    = (Raise (TypeError msg), oracle_down_run).
Proof.
  split; [reflexivity|].
  apply (create_container_rejects_detach
           [("name", JStr "cache"); ("image", JStr "redis:7"); ("detach", JBool false)]
           (JStr "cache") (JStr "redis:7") oracle_down_run); reflexivity.
Defined.

(** A container that does not exist. *)
Lemma lookup_failure_witness :
  perform (ContainersGet (JStr "ghost")) (env oracle_down_run)
  = (Raise (not_found "ghost"), env oracle_down_run) /\
  execute_action (JStr "delete_container") (JObj [("name", JStr "ghost")]) oracle_down_run
  = (Raise (not_found "ghost"),
     mkWorld [] [] (env oracle_down_run) [ECall (ContainersGet (JStr "ghost"))]).
Proof.
  split; [reflexivity|].
  assert (H1 : perform (ContainersGet (JStr "ghost")) (env oracle_down_run)
               = (Raise (not_found "ghost"), env oracle_down_run)) by reflexivity.
  destruct (lookup_failure_stops_the_handler (JStr "ghost") _ _ oracle_down_run H1)
    as (_ & _ & _ & _ & Hx).
  exact Hx.
Defined.

(** The logs of [web], with and without a number of lines. *)
Lemma get_container_logs_witness :
  execute_action (JStr "get_container_logs") (JObj [("name", JStr "web")]) oracle_down_run
  = (Ok (JObj [("logs", JStr "")]),
     mkWorld [] [] (env oracle_down_run)
       [ECall (ContainersGet (JStr "web")); ECall (Logs web (JInt 50))]) /\
  execute_action (JStr "get_container_logs")
    (JObj [("name", JStr "web"); ("lines", JInt 5)]) oracle_down_run
  = (Ok (JObj [("logs", JStr "")]),
     mkWorld [] [] (env oracle_down_run)
       [ECall (ContainersGet (JStr "web")); ECall (Logs web (JInt 5))]).
Proof.
  split.
  - apply (get_container_logs_tail (JStr "web") None web "" ""
             (env oracle_down_run) (env oracle_down_run) oracle_down_run); reflexivity.
  - apply (get_container_logs_tail (JStr "web") (Some (JInt 5)) web "" ""
             (env oracle_down_run) (env oracle_down_run) oracle_down_run); reflexivity.
Defined.

(** A command that is not found: exit code 127 is a result. *)
Lemma execute_in_container_witness :
  perform (Collaborators := Lab.failing_collaborators)
    (ExecRun web (JStr "frobnicate")) (env oracle_down_run)
  = (Ok (127%Z, "sh: 1: frobnicate: not found"), env oracle_down_run) /\
  execute_action (H0 := Lab.failing_collaborators) (JStr "execute_in_container")
    (JObj [("name", JStr "web"); ("command", JStr "frobnicate")]) oracle_down_run
  = (Ok (JObj [("exit_code", JInt 127); ("output", JStr "sh: 1: frobnicate: not found")]),
     mkWorld [] [] (env oracle_down_run)
       [ECall (ContainersGet (JStr "web")); ECall (ExecRun web (JStr "frobnicate"))]).
Proof.
  split; [reflexivity|].
  apply (execute_in_container_reports_exit_code (H0 := Lab.failing_collaborators)
           (JStr "web") (JStr "frobnicate") web 127 "sh: 1: frobnicate: not found"
           "sh: 1: frobnicate: not found" (env oracle_down_run) (env oracle_down_run)
           oracle_down_run); reflexivity.
Defined.

(** The same command with output that does not decode. *)
Lemma undecodable_output_witness :
  utf8_decode (PyLib := Lab.binary_pylib) "sh: 1: frobnicate: not found" = None /\
  exists msg,
    execute_action (H := Lab.binary_pylib) (H0 := Lab.failing_collaborators)
      (JStr "execute_in_container")
      (JObj [("name", JStr "web"); ("command", JStr "frobnicate")]) oracle_down_run
    = (Raise (UnicodeDecodeError msg),
       mkWorld [] [] (env oracle_down_run)
         [ECall (ContainersGet (JStr "web")); ECall (ExecRun web (JStr "frobnicate"))]).
Proof.
  split; [reflexivity|].
  apply (undecodable_output_raises_after_the_command (H := Lab.binary_pylib)
           (H0 := Lab.failing_collaborators)
           (JStr "web") (JStr "frobnicate") web 127 "sh: 1: frobnicate: not found"
           (env oracle_down_run) (env oracle_down_run) oracle_down_run); reflexivity.
Defined.

(** A memory limit for [web]. *)
Lemma modify_container_witness :
  execute_action (JStr "modify_container")
    (JObj [("mem_limit", JStr "512m"); ("name", JStr "web")]) oracle_down_run
  = (Ok (JObj [("message", JStr "Container modified: web")]),
     mkWorld [] [] (env oracle_down_run)
       [ECall (ContainersGet (JStr "web")); ECall (Update web [("mem_limit", JStr "512m")])]).
Proof.
  apply (modify_container_forwards_keywords
           [("mem_limit", JStr "512m"); ("name", JStr "web")] (JStr "web") web
           (env oracle_down_run) (env oracle_down_run) oracle_down_run); reflexivity.
Defined.

(** A removal with a keyword the handler does not have. *)
Lemma unexpected_keyword_witness :
  is_param (handler_sig h_delete_container) "force" = false /\
  exists msg,
    forall w : World Mock.ext,
      execute_action (JStr "delete_container")
        (JObj [("name", JStr "db"); ("force", JBool true)]) w
      = (Raise (TypeError msg), w).
Proof.
  split; [reflexivity|].
  apply (unexpected_keyword_raises "delete_container" "force" (JBool true)
           h_delete_container [("name", JStr "db"); ("force", JBool true)]
           delete_container_in_table eq_refl).
  - right. by left.
  - reflexivity.
Defined.

(** A listing asked for with a list of parameters. *)
Lemma non_mapping_parameters_witness :
  action_dispatch !! "list_containers" = Some h_list_containers /\
  exists msg,
    forall w : World Mock.ext,
      execute_action (JStr "list_containers") (JArr []) w = (Raise (TypeError msg), w).
Proof.
  assert (Ht : action_dispatch !! "list_containers" = Some h_list_containers)
    by (vm_compute; reflexivity).
  split; [exact Ht|].
  apply (non_mapping_parameters_raise "list_containers" h_list_containers (JArr []) Ht).
  intros kw Hkw. discriminate Hkw.
Defined.

(** An action that is null, and one that is a list. *)
Lemma non_string_action_witness :
  execute_action JNull (JObj []) oracle_down_run
  = (Ok (JObj [("error", JStr "Unknown action: None")]), oracle_down_run) /\
  execute_action (JArr [JStr "list_containers"]) (JObj []) oracle_down_run
  = (Raise (TypeError "unhashable type: 'list'"), oracle_down_run).
Proof.
  split.
  - apply (non_string_action_runs_no_handler JNull (JObj []) oracle_down_run).
    intros s Hs. discriminate Hs.
  - apply (non_string_action_runs_no_handler (JArr [JStr "list_containers"]) (JObj [])
             oracle_down_run).
    intros s Hs. discriminate Hs.
Defined.

(** A goal that is the number 5, set through the dispatcher: five more
    iterations never ask the oracle. *)
Lemma non_string_goal_witness :
  goals (snd (execute_action (JStr "set_goal") (JObj [("goal", JInt 5)]) malformed_run))
  = [JInt 5] /\
  (exists e,
     fst (think (snd (execute_action (JStr "set_goal") (JObj [("goal", JInt 5)])
                        malformed_run))) = Raise e) /\
  oracle_calls
    (trace (snd (ai_loop 5 (snd (execute_action (JStr "set_goal") (JObj [("goal", JInt 5)])
                                  malformed_run))))) = 0.
Proof.
  assert (Hg : goals (snd (execute_action (JStr "set_goal") (JObj [("goal", JInt 5)])
                             malformed_run)) = [JInt 5]) by reflexivity.
  assert (Hex : Exists (fun g => is_string g = false)
                  (goals (snd (execute_action (JStr "set_goal") (JObj [("goal", JInt 5)])
                                 malformed_run)))).
  { rewrite Hg. apply Exists_cons_hd. reflexivity. }
  destruct (non_string_goal_silences_the_oracle _ Hex) as (Hthink & _ & Hloop).
  split; [exact Hg|]. split; [exact Hthink|].
  destruct (Hloop 5) as (Ho & _ & _). exact Ho.
Defined.
